(** * Content normalisation pipeline of [src/app/api/fetch/content.ts]

    A shallow embedding of [isYouTubeLink], [getYouTubeSubtitles],
    [removeCommentsAndTables], [htmlToMarkdown], [fetchContentFromURL] and
    [getPDFContentFromBuffer], together with the parts of the JavaScript
    platform they rely on (string methods, [RegExp.prototype.test],
    [Date.prototype.toISOString], the [URL] constructor and
    [URLSearchParams.get]).

    Conventions.
    - A JavaScript string is a sequence of code units; it is embedded as a
      [string], so the code units are those below 256.  [length] is the
      JavaScript [.length].
    - A promise is embedded by its outcome: a computation returns [Ok v] when
      the promise resolves to [v] and [Err e] when it rejects with [e]; [await]
      is sequencing.
    - Everything outside the file (network, captions provider, PDF parser,
      HTML parser and markdown printer) is a field of a [World]; each call to
      a network collaborator is recorded in a trace of [Event]s. *)

From Stdlib Require Import ZArith List Bool Ascii String Lia DecimalString.
Import ListNotations.

Open Scope string_scope.

Set Warnings "-register-all".

(** ** Outcomes *)

(** What a JavaScript computation can throw.  [JsError m] is
    [new Error(m)]; the others are the platform's and the collaborators'. *)
Inductive Error : Type :=
| JsError (message : string)
| TypeError (message : string)
| RangeError (message : string)
| Rejected (origin : string) (message : string).

Inductive Result (A : Type) : Type :=
| Ok (value : A)
| Err (e : Error).

Arguments Ok {A} value.
Arguments Err {A} e.

Definition isOk {A} (r : Result A) : bool :=
  match r with Ok _ => true | Err _ => false end.

(** The three errors the file itself throws, under the names the
    specification gives them. *)
Definition FetchFailure : Error :=
  JsError "Failure fetching content from provided URL".
Definition InvalidInput : Error :=
  JsError "Invalid YouTube URL".
Definition UnsupportedType : Error :=
  JsError "URL provided is not a PDF or HTML document".

(** ** JavaScript built-ins *)

Module JS.

(** *** Strings *)

(** [s.includes(sub)] *)
Fixpoint includes (sub s : string) : bool :=
  prefix sub s
  || match s with
     | EmptyString => false
     | String _ s' => includes sub s'
     end.

Fixpoint drop (n : nat) (s : string) : string :=
  match n, s with
  | S n', String _ s' => drop n' s'
  | _, _ => s
  end.

(** [s.replace(pat, rep)] for a string pattern: the first occurrence only. *)
Fixpoint replace (pat rep s : string) : string :=
  if prefix pat s then rep ++ drop (length pat) s
  else match s with
       | EmptyString => EmptyString
       | String c s' => String c (replace pat rep s')
       end.

(** [s.substring(a, b)]: the arguments are swapped when [a > b] and clamped
    to the length. *)
Definition substring (a b : nat) (s : string) : string :=
  String.substring (Nat.min a b) (Nat.max a b - Nat.min a b) s.

(** [String(n)] for a non-negative integer. *)
Definition decimal (n : nat) : string :=
  NilEmpty.string_of_uint (Nat.to_uint n).

Fixpoint repeat (c : ascii) (n : nat) : string :=
  match n with
  | O => EmptyString
  | S n' => String c (repeat c n')
  end.

(** ECMAScript's ToZeroPaddedDecimalString(n, minLength). *)
Definition zeroPad (n minLength : nat) : string :=
  let d := decimal n in
  repeat "0" (minLength - length d) ++ d.

(** *** Regular expressions

    The fragment of the pattern language the file uses.  [test] only asks
    whether a match exists, so greedy and lazy choices do not matter and a
    pattern is matched by its derivatives. *)

Inductive regex : Type :=
| Void
| Eps
| Chr (c : ascii)
| Dot
| Seq (r1 r2 : regex)
| Alt (r1 r2 : regex)
| Star (r : regex).

(** [r?], [r+], [r{n}] and a literal run of characters. *)
Definition Opt (r : regex) : regex := Alt r Eps.
Definition Plus (r : regex) : regex := Seq r (Star r).
Fixpoint Rep (n : nat) (r : regex) : regex :=
  match n with
  | O => Eps
  | S n' => Seq r (Rep n' r)
  end.
Fixpoint Lit (s : string) : regex :=
  match s with
  | EmptyString => Eps
  | String c s' => Seq (Chr c) (Lit s')
  end.

(** Without the [s] flag, [.] matches any code unit but a line terminator:
    LF, CR (and U+2028, U+2029, which lie outside the embedded range). *)
Definition lineTerminator (c : ascii) : bool :=
  (c =? "010")%char || (c =? "013")%char.

Fixpoint nullable (r : regex) : bool :=
  match r with
  | Void => false
  | Eps => true
  | Chr _ => false
  | Dot => false
  | Seq r1 r2 => nullable r1 && nullable r2
  | Alt r1 r2 => nullable r1 || nullable r2
  | Star _ => true
  end.

Fixpoint deriv (a : ascii) (r : regex) : regex :=
  match r with
  | Void => Void
  | Eps => Void
  | Chr c => if (a =? c)%char then Eps else Void
  | Dot => if lineTerminator a then Void else Eps
  | Seq r1 r2 =>
      if nullable r1 then Alt (Seq (deriv a r1) r2) (deriv a r2)
      else Seq (deriv a r1) r2
  | Alt r1 r2 => Alt (deriv a r1) (deriv a r2)
  | Star r1 => Seq (deriv a r1) (Star r1)
  end.

(** The whole of [s] matches [r]. *)
Fixpoint matches (r : regex) (s : string) : bool :=
  match s with
  | EmptyString => nullable r
  | String c s' => matches (deriv c r) s'
  end.

(** [/^r/.test(s)]: some prefix of [s] matches [r]. *)
Fixpoint test (r : regex) (s : string) : bool :=
  nullable r
  || match s with
     | EmptyString => false
     | String c s' => test (deriv c r) s'
     end.

(** The words of a pattern, for reasoning. *)
Inductive Lang : regex -> string -> Prop :=
| LEps : Lang Eps ""
| LChr c : Lang (Chr c) (String c "")
| LDot c : lineTerminator c = false -> Lang Dot (String c "")
| LSeq r1 r2 s1 s2 : Lang r1 s1 -> Lang r2 s2 -> Lang (Seq r1 r2) (s1 ++ s2)
| LAltL r1 r2 s : Lang r1 s -> Lang (Alt r1 r2) s
| LAltR r1 r2 s : Lang r2 s -> Lang (Alt r1 r2) s
| LStarNil r : Lang (Star r) ""
| LStarCons r s1 s2 :
    Lang r s1 -> Lang (Star r) s2 -> Lang (Star r) (s1 ++ s2).

(** *** Dates

    A time value is a number of milliseconds since the epoch; the file only
    builds dates from integers.  The day and time-of-day functions are
    ECMAScript's ([/] and [mod] on [Z] round down, as its floor and modulo
    do); the calendar date of a day number is computed in the proleptic
    Gregorian calendar. *)

Definition msPerDay : Z := 86400000.

Definition Day (t : Z) : Z := (t / msPerDay)%Z.
Definition HourFromTime (t : Z) : Z := ((t / 3600000) mod 24)%Z.
Definition MinFromTime (t : Z) : Z := ((t / 60000) mod 60)%Z.
Definition SecFromTime (t : Z) : Z := ((t / 1000) mod 60)%Z.
Definition msFromTime (t : Z) : Z := (t mod 1000)%Z.

(** Year, month (1 to 12) and day of the month of a day number. *)
Definition civil (day : Z) : Z * Z * Z :=
  (let z := day + 719468 in
   let era := z / 146097 in
   let doe := z - era * 146097 in
   let yoe := (doe - doe / 1460 + doe / 36524 - doe / 146096) / 365 in
   let doy := doe - (365 * yoe + yoe / 4 - yoe / 100) in
   let mp := (5 * doy + 2) / 153 in
   let d := doy - (153 * mp + 2) / 5 + 1 in
   let m := if mp <? 10 then mp + 3 else mp - 9 in
   let y := yoe + era * 400 in
   (if m <=? 2 then y + 1 else y, m, d))%Z.

(** [new Date(v)]: TimeClip leaves [None] (an invalid date) when [v] is out
    of range. *)
Definition Date (v : Z) : option Z :=
  if (Z.abs v <=? 8640000000000000)%Z then Some v else None.

Definition isoYear (y : Z) : string :=
  if ((0 <=? y) && (y <=? 9999))%Z then zeroPad (Z.to_nat y) 4
  else (if (y <? 0)%Z then "-" else "+") ++ zeroPad (Z.abs_nat y) 6.

(** [d.toISOString()]: [YYYY-MM-DDTHH:mm:ss.sssZ], a RangeError on an
    invalid date. *)
Definition toISOString (d : option Z) : Result string :=
  match d with
  | None => Err (RangeError "Invalid time value")
  | Some t =>
      let '(y, m, dd) := civil (Day t) in
      Ok (isoYear y ++ "-" ++ zeroPad (Z.to_nat m) 2
          ++ "-" ++ zeroPad (Z.to_nat dd) 2
          ++ "T" ++ zeroPad (Z.to_nat (HourFromTime t)) 2
          ++ ":" ++ zeroPad (Z.to_nat (MinFromTime t)) 2
          ++ ":" ++ zeroPad (Z.to_nat (SecFromTime t)) 2
          ++ "." ++ zeroPad (Z.to_nat (msFromTime t)) 3
          ++ "Z")
  end.

(** *** URLs

    [new URL(input)] with no base, as far as the query is concerned.  The
    input is trimmed and stripped of tabs and newlines, the scheme is read,
    and what follows the colon is cut at the first [#] (fragment) and, before
    it, at the first [?] (query).  Whether the part between scheme and query
    (slashes, credentials, host, port, path) is acceptable for the scheme is
    the host parser's business and is left to [hierOk]. *)

Definition c0OrSpace (c : ascii) : bool := (nat_of_ascii c <=? 32)%nat.
Definition tabOrNewline (c : ascii) : bool :=
  (c =? "009")%char || (c =? "010")%char || (c =? "013")%char.
Definition asciiDigit (c : ascii) : bool :=
  ((48 <=? nat_of_ascii c) && (nat_of_ascii c <=? 57))%nat.
Definition asciiUpper (c : ascii) : bool :=
  ((65 <=? nat_of_ascii c) && (nat_of_ascii c <=? 90))%nat.
Definition asciiLower (c : ascii) : bool :=
  ((97 <=? nat_of_ascii c) && (nat_of_ascii c <=? 122))%nat.
Definition asciiAlpha (c : ascii) : bool := asciiUpper c || asciiLower c.
Definition toLower (c : ascii) : ascii :=
  if asciiUpper c then ascii_of_nat (nat_of_ascii c + 32) else c.

Fixpoint trimStart (s : string) : string :=
  match s with
  | EmptyString => EmptyString
  | String c s' => if c0OrSpace c then trimStart s' else s
  end.

Fixpoint revAppend (s acc : string) : string :=
  match s with
  | EmptyString => acc
  | String c s' => revAppend s' (String c acc)
  end.
Definition reverse (s : string) : string := revAppend s "".
Definition trimEnd (s : string) : string := reverse (trimStart (reverse s)).

Fixpoint removeTabNewline (s : string) : string :=
  match s with
  | EmptyString => EmptyString
  | String c s' =>
      if tabOrNewline c then removeTabNewline s'
      else String c (removeTabNewline s')
  end.

(** Scheme state: letters, digits, [+], [-] and [.] up to a colon; anything
    else means there is no scheme. *)
Fixpoint schemeState (buffer s : string) : option (string * string) :=
  match s with
  | EmptyString => None
  | String c s' =>
      if asciiAlpha c || asciiDigit c
         || (c =? "+")%char || (c =? "-")%char || (c =? ".")%char
      then schemeState (buffer ++ String (toLower c) "") s'
      else if (c =? ":")%char then Some (buffer, s')
      else None
  end.

Definition schemeStartState (s : string) : option (string * string) :=
  match s with
  | EmptyString => None
  | String c s' =>
      if asciiAlpha c then schemeState (String (toLower c) "") s' else None
  end.

(** Cut at the first occurrence of [sep]. *)
Fixpoint cut (sep : ascii) (s : string) : string * option string :=
  match s with
  | EmptyString => (EmptyString, None)
  | String c s' =>
      if (c =? sep)%char then (EmptyString, Some s')
      else let (before, after) := cut sep s' in (String c before, after)
  end.

Record URL : Type := {
  scheme : string;
  hier : string;
  query : option string;
  fragment : option string
}.

Definition parseURL (hierOk : string -> string -> bool) (input : string)
  : Result URL :=
  let s := removeTabNewline (trimEnd (trimStart input)) in
  match schemeStartState s with
  | None => Err (TypeError "Invalid URL")
  | Some (sch, rest) =>
      let (beforeFragment, frag) := cut "#" rest in
      let (h, q) := cut "?" beforeFragment in
      if hierOk sch h
      then Ok {| scheme := sch; hier := h; query := q; fragment := frag |}
      else Err (TypeError "Invalid URL")
  end.

(** *** URLSearchParams: the application/x-www-form-urlencoded parser.
    Percent-decoded bytes are kept as they are. *)

Definition hexVal (c : ascii) : option nat :=
  let n := nat_of_ascii c in
  if asciiDigit c then Some (n - 48)
  else if ((65 <=? n) && (n <=? 70))%nat then Some (n - 55)
  else if ((97 <=? n) && (n <=? 102))%nat then Some (n - 87)
  else None.

Fixpoint percentDecode (s : string) : string :=
  match s with
  | EmptyString => EmptyString
  | String c s' =>
      if (c =? "%")%char then
        match s' with
        | String h (String l s'') =>
            match hexVal h, hexVal l with
            | Some a, Some b =>
                String (ascii_of_nat (16 * a + b)) (percentDecode s'')
            | _, _ => String c (percentDecode s')
            end
        | _ => String c (percentDecode s')
        end
      else String c (percentDecode s')
  end.

Fixpoint split (sep : ascii) (s : string) : list string :=
  match s with
  | EmptyString => [EmptyString]
  | String c s' =>
      if (c =? sep)%char then EmptyString :: split sep s'
      else match split sep s' with
           | x :: xs => String c x :: xs
           | [] => [String c EmptyString]
           end
  end.

Fixpoint plusToSpace (s : string) : string :=
  match s with
  | EmptyString => EmptyString
  | String c s' =>
      String (if (c =? "+")%char then " "%char else c) (plusToSpace s')
  end.

Definition parsePair (sequence : string) : string * string :=
  let (name, value) := cut "=" sequence in
  (percentDecode (plusToSpace name),
   percentDecode (plusToSpace match value with Some v => v | None => "" end)).

Definition parseUrlencoded (input : string) : list (string * string) :=
  map parsePair
      (filter (fun sequence => negb (sequence =? "")) (split "&" input)).

Definition searchParams (u : URL) : list (string * string) :=
  parseUrlencoded match query u with Some q => q | None => "" end.

(** [params.get(name)]: the first value under [name], or [null]. *)
Fixpoint get (name : string) (params : list (string * string))
  : option string :=
  match params with
  | [] => None
  | (n, v) :: rest => if n =? name then Some v else get name rest
  end.

End JS.

(** ** [isYouTubeLink] *)

(** [/^(http(s)?:\/\/)?((w){3}.)?youtu(be|.be)?(\.com)?\/.+/] *)
Definition pattern : JS.regex :=
  JS.Seq (JS.Opt (JS.Seq (JS.Lit "http")
                 (JS.Seq (JS.Opt (JS.Chr "s")) (JS.Lit "://"))))
 (JS.Seq (JS.Opt (JS.Seq (JS.Rep 3 (JS.Chr "w")) JS.Dot))
 (JS.Seq (JS.Lit "youtu")
 (JS.Seq (JS.Opt (JS.Alt (JS.Lit "be") (JS.Seq JS.Dot (JS.Lit "be"))))
 (JS.Seq (JS.Opt (JS.Seq (JS.Chr ".") (JS.Lit "com")))
 (JS.Seq (JS.Chr "/") (JS.Plus JS.Dot)))))).

Definition isYouTubeLink (url : string) : bool :=
  JS.test pattern url.

(** What [pattern] asks for before the slash that ends the host. *)
Definition hostPart : JS.regex :=
  JS.Seq (JS.Opt (JS.Seq (JS.Lit "http")
                 (JS.Seq (JS.Opt (JS.Chr "s")) (JS.Lit "://"))))
 (JS.Seq (JS.Opt (JS.Seq (JS.Rep 3 (JS.Chr "w")) JS.Dot))
 (JS.Seq (JS.Lit "youtu")
 (JS.Seq (JS.Opt (JS.Alt (JS.Lit "be") (JS.Seq JS.Dot (JS.Lit "be"))))
         (JS.Opt (JS.Seq (JS.Chr ".") (JS.Lit "com")))))).

(** ** The HTML tree and [removeCommentsAndTables] *)

Module Hast.

(** The nodes of a parsed HTML document. *)
Inductive Node : Type :=
| Element (tagName : string) (properties : list (string * string))
          (children : list Node)
| Text (value : string)
| Comment (value : string)
| Doctype.

(** The tree the parser returns: a root and its children. *)
Record Root : Type := { rootChildren : list Node }.

(** The [type] field of a node. *)
Definition nodeType (n : Node) : string :=
  match n with
  | Element _ _ _ => "element"
  | Text _ => "text"
  | Comment _ => "comment"
  | Doctype => "doctype"
  end.

(** The [tagName] field, which only elements have. *)
Definition tagNameOf (n : Node) : option string :=
  match n with
  | Element tag _ _ => Some tag
  | _ => None
  end.

(** The tests [{ type: t }] and [{ tagName: t }]: a node passes when it has
    the field with that value. *)
Definition hasType (t : string) (n : Node) : bool := nodeType n =? t.
Definition hasTagName (t : string) (n : Node) : bool :=
  match tagNameOf n with
  | Some tag => tag =? t
  | None => false
  end.

(** Modelled from the spec: [remove] is imported from the package
    unist-util-remove, whose source is not under src/.  Section 4.4 of the
    specification says of it that it removes every node that passes the test
    together with its descendants; the package adds, with its default option
    [cascade], that a parent all of whose children were removed is removed
    too, and that the tree given to it is itself never tested nor removed.
    [preorder] returns the node that is left, if any. *)
Fixpoint preorder (pass : Node -> bool) (cascade : bool) (n : Node)
  : option Node :=
  if pass n then None
  else match n with
       | Element tag props children =>
           match children with
           | [] => Some n
           | _ :: _ =>
               let kept :=
                 (fix keep (cs : list Node) : list Node :=
                    match cs with
                    | [] => []
                    | c :: cs' =>
                        match preorder pass cascade c with
                        | Some c' => c' :: keep cs'
                        | None => keep cs'
                        end
                    end) children in
               match kept with
               | [] => if cascade then None else Some (Element tag props [])
               | _ :: _ => Some (Element tag props kept)
               end
           end
       | _ => Some n
       end.

Definition keep (pass : Node -> bool) (cascade : bool)
  : list Node -> list Node :=
  fix keep (cs : list Node) : list Node :=
    match cs with
    | [] => []
    | c :: cs' =>
        match preorder pass cascade c with
        | Some c' => c' :: keep cs'
        | None => keep cs'
        end
    end.

(** [remove(tree, test)], with the option [cascade] at its default. *)
Definition remove (tree : Root) (pass : Node -> bool) : Root :=
  {| rootChildren := keep pass true (rootChildren tree) |}.

(** Every node of a forest, parents before children. *)
Fixpoint nodes (n : Node) : list Node :=
  n :: match n with
       | Element _ _ children =>
           (fix all (cs : list Node) : list Node :=
              match cs with
              | [] => []
              | c :: cs' => (nodes c ++ all cs')%list
              end) children
       | _ => []
       end.

Fixpoint allNodes (cs : list Node) : list Node :=
  match cs with
  | [] => []
  | c :: cs' => (nodes c ++ allNodes cs')%list
  end.

(** The text nodes that lie neither in a comment nor under a [<table>]. *)
Fixpoint proseTexts (n : Node) : list string :=
  match n with
  | Text value => [value]
  | Element tag _ children =>
      if tag =? "table" then []
      else (fix all (cs : list Node) : list string :=
              match cs with
              | [] => []
              | c :: cs' => (proseTexts c ++ all cs')%list
              end) children
  | _ => []
  end.

Fixpoint allProseTexts (cs : list Node) : list string :=
  match cs with
  | [] => []
  | c :: cs' => (proseTexts c ++ allProseTexts cs')%list
  end.

(** The values of the text nodes of a list of nodes. *)
Fixpoint textValues (ns : list Node) : list string :=
  match ns with
  | [] => []
  | Text value :: ns' => value :: textValues ns'
  | _ :: ns' => textValues ns'
  end.

End Hast.

(** Two nodes that differ at most in their children. *)
Definition sameHead (m m' : Hast.Node) : Prop :=
  match m, m' with
  | Hast.Element t p _, Hast.Element t' p' _ => t = t' /\ p = p'
  | Hast.Text v, Hast.Text v' => v = v'
  | Hast.Comment v, Hast.Comment v' => v = v'
  | Hast.Doctype, Hast.Doctype => True
  | _, _ => False
  end.

(** Where the nodes of what is left of a node come from: nodes of that node
    with the same head, which did not pass the test. *)
Definition originIn (pass : Hast.Node -> bool) (n n' : Hast.Node) : Prop :=
  forall m', In m' (Hast.nodes n') ->
             exists m, In m (Hast.nodes n) /\ sameHead m m'
                       /\ pass m = false.

(** The transformer that [removeCommentsAndTables()] returns: it changes the
    tree in place, first with the test [{ type: "comment" }], then with
    [{ tagName: "table" }]. *)
Definition removeCommentsAndTables (tree : Hast.Root) : Hast.Root :=
  Hast.remove (Hast.remove tree (Hast.hasType "comment"))
              (Hast.hasTagName "table").

(** ** The collaborators *)

Definition Buffer : Type := list Byte.byte.

(** What [fetch] resolves to: [status] decides [response.ok],
    [contentTypeHeader] is [response.headers.get("content-type")] and [body]
    is the outcome of [response.text()]. *)
Record Response : Type := {
  status : nat;
  contentTypeHeader : option string;
  body : Result string
}.

Definition ok (response : Response) : bool :=
  ((200 <=? status response) && (status response <=? 299))%nat.

(** A transcript segment of the captions provider; [offset] and [duration]
    are in milliseconds. *)
Record TranscriptResponse : Type := {
  text : string;
  duration : Z;
  offset : Z
}.

(** The result of [pdf(buffer)], of which the file reads [text]. *)
Record PdfData : Type := { pdfText : string }.

Record World : Type := {
  Mdast : Type;
  fetch : string -> Result Response;
  axiosGet : string -> Result Buffer;
  pdf : Buffer -> Result PdfData;
  fetchTranscript : string -> Result (list TranscriptResponse);
  rehypeParse : string -> Result Hast.Root;
  rehype2remark : Hast.Root -> Result Mdast;
  remarkStringify : Mdast -> Result string;
  hierOk : string -> string -> bool
}.

(** The requests a run sends out, in order. *)
Inductive Event : Type :=
| GET (url : string)
| AxiosGET (url : string)
| FetchTranscript (videoId : string).

(** ** Computations: an outcome and the requests made on the way *)

Definition M (A : Type) : Type := (Result A * list Event)%type.

Definition ret {A} (a : A) : M A := (Ok a, []).
Definition throw {A} (e : Error) : M A := (Err e, []).
Definition await {A} (r : Result A) : M A := (r, []).
Definition request {A} (ev : Event) (r : Result A) : M A := (r, [ev]).

Definition bind {A B} (m : M A) (k : A -> M B) : M B :=
  match m with
  | (Ok a, t) => let (r, t') := k a in (r, (t ++ t')%list)
  | (Err e, t) => (Err e, t)
  end.

Definition outcome {A} (m : M A) : Result A := fst m.
Definition trace {A} (m : M A) : list Event := snd m.

Notation "x <- m ;; k" := (bind m (fun x => k))
  (at level 61, m at next level, right associativity).

Definition andThen {A B} (r : Result A) (k : A -> Result B) : Result B :=
  match r with
  | Ok a => k a
  | Err e => Err e
  end.

Notation "'let?' x := r 'in' k" := (andThen r (fun x => k))
  (at level 61, x name, r at next level, right associativity).

(** ** [getYouTubeSubtitles] *)

(** [new Date(ms).toISOString().substring(11, 23)] *)
Definition clock (ms : Z) : Result string :=
  let? iso := JS.toISOString (JS.Date ms) in
  Ok (JS.substring 11 23 iso).

(** What one turn of the [forEach] appends to [srtContent]. *)
Definition cue (item : TranscriptResponse) (index : nat) : Result string :=
  let? start := clock (offset item) in
  let? end_ := clock (offset item + duration item) in
  Ok (JS.decimal (index + 1) ++ String "010" ""
      ++ JS.replace "." "," start ++ " --> " ++ JS.replace "." "," end_
      ++ String "010" "" ++ text item ++ String "010" (String "010" "")).

Fixpoint forEach (transcript : list TranscriptResponse) (index : nat)
                 (srtContent : string) : Result string :=
  match transcript with
  | [] => Ok srtContent
  | item :: rest =>
      let? c := cue item index in
      forEach rest (S index) (srtContent ++ c)
  end.

(** [!videoId]: [null] and the empty string are falsy. *)
Definition falsy (v : option string) : bool :=
  match v with
  | None => true
  | Some s => s =? ""
  end.

Definition getYouTubeSubtitles (W : World) (url : string) : M string :=
  u <- await (JS.parseURL (hierOk W) url) ;;
  let videoId := JS.get "v" (JS.searchParams u) in
  if falsy videoId then throw InvalidInput
  else
    let id := match videoId with Some s => s | None => "" end in
    transcript <- request (FetchTranscript id) (fetchTranscript W id) ;;
    await (forEach transcript 0 "").

(** ** [htmlToMarkdown] *)

Definition htmlToMarkdown (W : World) (html : string) : Result string :=
  let? tree := rehypeParse W html in
  let? mdast := rehype2remark W (removeCommentsAndTables tree) in
  remarkStringify W mdast.

(** ** [fetchContentFromURL] and [getPDFContentFromBuffer] *)

(** [h || ""]: [null] and the empty string both give the empty string. *)
Definition orEmpty (h : option string) : string :=
  match h with
  | Some v => if v =? "" then "" else v
  | None => ""
  end.

Record URLDetailContent : Type := {
  url : string;
  content : string;
  size : nat;
  type : string
}.

Definition fetchContentFromURL (W : World) (url : string)
  : M URLDetailContent :=
  response <- request (GET url) (fetch W url) ;;
  if negb (ok response) then throw FetchFailure
  else
    let contentType := orEmpty (contentTypeHeader response) in
    if isYouTubeLink url then
      srtContent <- getYouTubeSubtitles W url ;;
      ret {| url := url; content := srtContent;
             size := length srtContent; type := "text/plain" |}
    else if JS.includes "text/html" contentType then
      htmlContent <- await (body response) ;;
      markdownContent <- await (htmlToMarkdown W htmlContent) ;;
      ret {| url := url; content := markdownContent;
             size := length htmlContent; type := "text/html" |}
    else if JS.includes "application/pdf" contentType then
      pdfBuffer <- request (AxiosGET url) (axiosGet W url) ;;
      pdfData <- await (pdf W pdfBuffer) ;;
      ret {| url := url; content := pdfText pdfData;
             size := length (pdfText pdfData); type := "application/pdf" |}
    else throw UnsupportedType.

(** The object [getPDFContentFromBuffer] returns has no [url]. *)
Record PDFContent : Type := {
  pdfContent : string;
  pdfSize : nat;
  pdfType : string
}.

Definition getPDFContentFromBuffer (W : World) (pdfBuffer : Buffer)
  : M PDFContent :=
  data <- await (pdf W pdfBuffer) ;;
  let content := pdfText data in
  let size := length (pdfText data) in
  ret {| pdfContent := content; pdfSize := size;
         pdfType := "application/pdf" |}.

(** ** The specification's wording, for comparison *)

(** What step 2 of the orchestrator delegates to: the transcript of the
    video, wrapped as plain text. *)
Definition viaYouTube (W : World) (url : string) : M URLDetailContent :=
  srtContent <- getYouTubeSubtitles W url ;;
  ret {| url := url; content := srtContent;
         size := length srtContent; type := "text/plain" |}.

(** [HH:MM:SS,mmm] of an elapsed time in milliseconds: hours, minutes and
    seconds on two digits, milliseconds on three, a comma before them. *)
Definition srtTime (ms : Z) : string :=
  JS.zeroPad (Z.to_nat (ms / 3600000)) 2
  ++ ":" ++ JS.zeroPad (Z.to_nat ((ms / 60000) mod 60)) 2
  ++ ":" ++ JS.zeroPad (Z.to_nat ((ms / 1000) mod 60)) 2
  ++ "," ++ JS.zeroPad (Z.to_nat (ms mod 1000)) 3.

(** One cue: its number, its time range, its text and a blank line. *)
Definition srtCue (number : nat) (item : TranscriptResponse) : string :=
  JS.decimal number ++ String "010" ""
  ++ srtTime (offset item) ++ " --> " ++ srtTime (offset item + duration item)
  ++ String "010" "" ++ text item ++ String "010" (String "010" "").

Fixpoint srtFrom (number : nat) (transcript : list TranscriptResponse)
  : string :=
  match transcript with
  | [] => ""
  | item :: rest => srtCue number item ++ srtFrom (S number) rest
  end.

(** The cues of the segments in their order, numbered from 1. *)
Definition subtitleTrack (transcript : list TranscriptResponse) : string :=
  srtFrom 1 transcript.

(** Two, and three, characters, none of them a period. *)
Definition twoPlain (s : string) : bool :=
  match s with
  | String a (String b EmptyString) =>
      negb (a =? ".")%char && negb (b =? ".")%char
  | _ => false
  end.

Definition threePlain (s : string) : bool :=
  match s with
  | String a (String b (String c EmptyString)) =>
      negb (a =? ".")%char && negb (b =? ".")%char && negb (c =? ".")%char
  | _ => false
  end.

(** A segment that starts and ends within the first twenty-four hours. *)
Definition withinDay (item : TranscriptResponse) : Prop :=
  (0 <= offset item < JS.msPerDay
   /\ 0 <= offset item + duration item < JS.msPerDay)%Z.

(** Dispatch by content type alone: the captions provider is never asked;
    a record is the one the content type selects; an answer that is no
    success is a fetch failure and a content type that selects nothing is
    unsupported. *)
Definition dispatched (W : World) (u : string) : Prop :=
  (forall id, ~ In (FetchTranscript id) (trace (fetchContentFromURL W u)))
  /\ (forall r,
        outcome (fetchContentFromURL W u) = Ok r ->
        exists response,
          fetch W u = Ok response /\ ok response = true
          /\ ((JS.includes "text/html"
                 (orEmpty (contentTypeHeader response)) = true
               /\ type r = "text/html")
              \/ (JS.includes "application/pdf"
                    (orEmpty (contentTypeHeader response)) = true
                  /\ type r = "application/pdf")))
  /\ (forall response,
        fetch W u = Ok response ->
        ok response = false ->
        fetchContentFromURL W u = (Err FetchFailure, [GET u]))
  /\ (forall response,
        fetch W u = Ok response ->
        ok response = true ->
        JS.includes "text/html" (orEmpty (contentTypeHeader response))
        = false ->
        JS.includes "application/pdf" (orEmpty (contentTypeHeader response))
        = false ->
        fetchContentFromURL W u = (Err UnsupportedType, [GET u])).

(** A URL without a scheme, in the sense of the URL parser: after trimming,
    no run of scheme characters followed by a colon starts it. *)
Definition schemeless (url : string) : bool :=
  match JS.schemeStartState
          (JS.removeTabNewline (JS.trimEnd (JS.trimStart url))) with
  | Some _ => false
  | None => true
  end.

(** [s] has no colon. *)
Fixpoint colonFree (s : string) : bool :=
  match s with
  | EmptyString => true
  | String c s' => negb (c =? ":")%char && colonFree s'
  end.

(** [s] has no slash. *)
Fixpoint slashFree (s : string) : bool :=
  match s with
  | EmptyString => true
  | String c s' => negb (c =? "/")%char && slashFree s'
  end.

(** ** A sample world

    One page, one PDF, one JSON document and one video; everything else is
    not found.  Its HTML parser knows one page, its markdown printer writes
    the text nodes one per line. *)

Module Sample.

Definition page : string :=
  "<html><body><p>Hello</p><table><tr><td>X</td></tr></table></body></html>".

Definition pageTree : Hast.Root :=
  {| Hast.rootChildren :=
       [Hast.Element "html" []
          [Hast.Element "head" [] [];
           Hast.Element "body" []
             [Hast.Element "p" [] [Hast.Text "Hello"];
              Hast.Element "table" []
                [Hast.Element "tbody" []
                   [Hast.Element "tr" []
                      [Hast.Element "td" [] [Hast.Text "X"]]]]]]] |}.

Definition lines (values : list string) : string :=
  fold_right (fun v acc => v ++ String "010" acc) "" values.

Definition response (code : nat) (contentType : option string)
                    (content : string) : Response :=
  {| status := code; contentTypeHeader := contentType; body := Ok content |}.

Definition notFound : Response := response 404 (Some "text/html") "Not Found".

Definition world : World :=
  {| Mdast := list string;
     fetch := fun url =>
       if url =? "https://example.org/page"
       then Ok (response 200 (Some "text/html; charset=utf-8") page)
       else if url =? "https://example.org/paper.pdf"
       then Ok (response 200 (Some "application/pdf") "%PDF-1.7")
       else if url =? "https://example.org/data.json"
       then Ok (response 200 (Some "application/json") "{}")
       else if url =? "https://www.youtube.com/watch?v=abc"
       then Ok (response 200 (Some "text/html") "<html></html>")
       else if url =? "https://youtu.be/"
       then Ok (response 200 (Some "application/json") "{}")
       else Ok notFound;
     axiosGet := fun _ => Ok [Byte.x25; Byte.x50; Byte.x44; Byte.x46];
     pdf := fun _ => Ok {| pdfText := "A paper" |};
     fetchTranscript := fun _ =>
       Ok [{| text := "Hi"; duration := 1000; offset := 0 |}];
     rehypeParse := fun html =>
       if html =? page then Ok pageTree
       else Ok {| Hast.rootChildren := [Hast.Text html] |};
     rehype2remark := fun tree =>
       Ok (Hast.textValues (Hast.allNodes (Hast.rootChildren tree)));
     remarkStringify := fun mdast => Ok (lines mdast);
     hierOk := fun _ _ => true |}.

(** The same world, except that every request is answered 404. *)
Definition down : World :=
  {| Mdast := Mdast world;
     fetch := fun _ => Ok notFound;
     axiosGet := axiosGet world;
     pdf := pdf world;
     fetchTranscript := fetchTranscript world;
     rehypeParse := rehypeParse world;
     rehype2remark := rehype2remark world;
     remarkStringify := remarkStringify world;
     hierOk := hierOk world |}.

(** A segment that starts at the twenty-four hour mark. *)
Definition late : TranscriptResponse :=
  {| text := "Hi"; duration := 1000; offset := 86400000 |}.

End Sample.

(** ** Further notions for the properties of the pipeline *)

(** No character of [s] is [bad]. *)
Fixpoint noneOf (bad : ascii -> bool) (s : string) : bool :=
  match s with
  | EmptyString => true
  | String c s' => negb (bad c) && noneOf bad s'
  end.

(** A path that the URL parser reads as it is written: no space or control
    character, no [?] and no [#]. *)
Definition plainPath (p : string) : bool :=
  noneOf (fun c => JS.c0OrSpace c || (c =? "?")%char || (c =? "#")%char) p.

(** A time value that [new Date] accepts. *)
Definition validTime (t : Z) : bool :=
  (Z.abs t <=? 8640000000000000)%Z.

(** A segment whose start and end are both accepted. *)
Definition validItem (item : TranscriptResponse) : bool :=
  validTime (offset item) && validTime (offset item + duration item).

(** Worlds like the sample one, in which every request gets the same answer
    and the captions provider the same outcome. *)
Module More.

Definition always (answer : Response)
                  (captions : Result (list TranscriptResponse)) : World :=
  {| Mdast := Mdast Sample.world;
     fetch := fun _ => Ok answer;
     axiosGet := axiosGet Sample.world;
     pdf := pdf Sample.world;
     fetchTranscript := fun _ => captions;
     rehypeParse := rehypeParse Sample.world;
     rehype2remark := rehype2remark Sample.world;
     remarkStringify := remarkStringify Sample.world;
     hierOk := hierOk Sample.world |}.

Definition found : Response :=
  Sample.response 200 (Some "text/html") "<html></html>".

Definition both : Response :=
  Sample.response 200 (Some "text/html, application/pdf") "<p>both</p>".

Definition bare : Response :=
  {| status := 200; contentTypeHeader := None; body := Ok "" |}.

Definition unavailable : Error :=
  Rejected "youtube-transcript" "Transcript is disabled on this video".

End More.

(** ** Arrays *)

Module JSArray.

(** [a.slice(start, end)]: a negative index counts from the end, and both
    are clamped to the length. *)
Definition relative (len index : Z) : Z :=
  if (index <? 0)%Z then Z.max (len + index) 0 else Z.min index len.

Definition slice {A} (start end_ : Z) (a : list A) : list A :=
  let len := Z.of_nat (List.length a) in
  let k := relative len start in
  let final := relative len end_ in
  firstn (Z.to_nat (final - k)) (skipn (Z.to_nat k) a).

End JSArray.

(** ** The chat component, [src/app/components/chat/chat.tsx]

    The component is a function of its state; each handler is embedded as a
    function from the state it reads to the state it writes. *)

Module Chat.

(** [message.urlDetail] *)
Record URLDetail : Type := {
  url : string;
  size : nat;
  type : string
}.

(** The fields of a message that the component reads.  [id], [streaming],
    [isError], [urlDetail] and [preview] are optional in the source: a
    missing flag is falsy.  [date] is [new Date(m.date).getTime()], with
    [None] for an invalid date. *)
Record ChatMessage : Type := {
  id : option string;
  role : string;
  content : string;
  date : option Z;
  streaming : bool;
  isError : bool;
  urlDetail : option URLDetail;
  preview : bool
}.

Record Bot : Type := {
  botHello : string;
  context : list ChatMessage;
  hideContext : bool
}.

Record Session : Type := {
  messages : list ChatMessage;
  clearContextIndex : option nat;
  bot : Bot
}.

(** What the component imports from files that are not under src/: two
    constants of [constant.ts], two strings of the locale, the string that
    [prettyObject({error: true, message: "empty response"})] returns, and
    [createMessage] of the store, applied to a role and a content. *)
Record Deps : Type := {
  CHAT_PAGE_SIZE : Z;
  REQUEST_TIMEOUT_MS : Z;
  UnknownFileType : string;
  LoadingURL : string;
  emptyResponse : string;
  createMessage : string -> string -> ChatMessage
}.

(** *** [measure]: the rows of the input box.  [measured] is what
    [autoGrowTextArea] returns, when there is an input box to measure. *)
Definition inputRows (isMobileScreen : bool) (measured : option Z) : Z :=
  let rows := match measured with Some r => r | None => 1%Z end in
  Z.min 20 (Z.max (2 + (if negb isMobileScreen then 1 else 0)) rows).

(** *** The effect that settles stale messages *)

Definition isStale (stopTiming : Z) (m : ChatMessage) : bool :=
  isError m
  || match date m with
     | Some t => (t <? stopTiming)%Z
     | None => false
     end.

Definition settle (D : Deps) (stopTiming : Z) (m : ChatMessage)
  : ChatMessage :=
  if isStale stopTiming m then
    let m1 :=
      if streaming m
      then {| id := id m; role := role m; content := content m;
              date := date m; streaming := false; isError := isError m;
              urlDetail := urlDetail m; preview := preview m |}
      else m in
    if (length (content m1) =? 0)%nat
    then {| id := id m1; role := role m1; content := emptyResponse D;
            date := date m1; streaming := streaming m1; isError := true;
            urlDetail := urlDetail m1; preview := preview m1 |}
    else m1
  else m.

(** [now] is [Date.now()]. *)
Definition settleStale (D : Deps) (now : Z) (session : Session) : Session :=
  let stopTiming := (now - REQUEST_TIMEOUT_MS D)%Z in
  {| messages := map (settle D stopTiming) (messages session);
     clearContextIndex := clearContextIndex session;
     bot := bot session |}.

(** *** [deleteMessage] and [onDelete]

    The argument of [deleteMessage] is typed as an optional string, and the
    component calls it with [message.id ?? i], the index of the message in
    the page when it has no id. *)
Inductive MsgId : Type :=
| IdString (s : string)
| IdNumber (i : nat)
| IdUndefined.

(** [m.id !== msgId] *)
Definition differs (m : ChatMessage) (msgId : MsgId) : bool :=
  match id m, msgId with
  | Some s, IdString s' => negb (s =? s')
  | None, IdUndefined => false
  | _, _ => true
  end.

Definition deleteMessage (msgId : MsgId) (session : Session) : Session :=
  {| messages := filter (fun m => differs m msgId) (messages session);
     clearContextIndex := clearContextIndex session;
     bot := bot session |}.

(** [onDelete(message.id ?? i)] *)
Definition onDeleteAt (message : ChatMessage) (i : nat) (session : Session)
  : Session :=
  deleteMessage match id message with
                | Some s => IdString s
                | None => IdNumber i
                end session.

(** *** The messages to render *)

Definition shownContext (session : Session) : list ChatMessage :=
  if hideContext (bot session) then [] else context (bot session).

Definition getUrlTypePrefix (D : Deps) (type : string) : string :=
  if type =? "text/html" then "HTML"
  else if type =? "application/pdf" then "PDF"
  else if type =? "text/plain" then "TXT"
  else UnknownFileType D.

(** [Math.round(size / 1024)] for a size that is a natural number: halves
    are rounded up. *)
Definition sizeInKB (size : nat) : nat := (size + 512) / 1024.

(** The bullet U+2022 of the label, as its UTF-8 bytes. *)
Definition bullet : string := String "226" (String "128" (String "162" "")).

Definition frontend (D : Deps) (message : ChatMessage) : ChatMessage :=
  match urlDetail message with
  | None => message
  | Some detail =>
      {| id := id message; role := role message;
         content := url detail ++ String "010" ""
                    ++ "`" ++ getUrlTypePrefix D (type detail)
                    ++ " " ++ bullet ++ " "
                    ++ JS.decimal (sizeInKB (size detail)) ++ " KB`";
         date := date message; streaming := streaming message;
         isError := isError message; urlDetail := urlDetail message;
         preview := preview message |}
  end.

Definition getFrontendMessages (D : Deps) (messages : list ChatMessage)
  : list ChatMessage :=
  map (frontend D) messages.

(** Reading [streaming] off the last message throws when there is none;
    the reading is skipped when no URL is pending. *)
Definition getUrlPreviewMessage (D : Deps) (session : Session)
                                (temporaryURLInput : string)
  : Result (option ChatMessage) :=
  if temporaryURLInput =? "" then Ok None
  else match last (map Some (messages session)) None with
       | None =>
           Err (TypeError
                  "Cannot read properties of undefined (reading 'streaming')")
       | Some lastMessage =>
           if streaming lastMessage then Ok None
           else Ok (Some (createMessage D "user"
                            (temporaryURLInput ++ String "010" ""
                             ++ "`" ++ LoadingURL D ++ "`")))
       end.

Definition renderMessages (D : Deps) (session : Session)
                          (temporaryURLInput : string)
  : Result (list ChatMessage) :=
  let hello :=
    if botHello (bot session) =? "" then []
    else [createMessage D "assistant" (botHello (bot session))] in
  let? previewMessage := getUrlPreviewMessage D session temporaryURLInput in
  Ok (shownContext session ++ hello
      ++ getFrontendMessages D (messages session)
      ++ match previewMessage with Some m => [m] | None => [] end)%list.

(** *** The page of messages that is shown *)


Definition setMsgRenderIndex (D : Deps) (renderLength newIndex : Z) : Z :=
  let newIndex := Z.min (renderLength - CHAT_PAGE_SIZE D) newIndex in
  Z.max 0 newIndex.

(** [messages]: the slice of the rendered messages. *)
Definition page (D : Deps) (msgRenderIndex : Z)
                (rendered : list ChatMessage) : list ChatMessage :=
  let endRenderIndex :=
    Z.min (msgRenderIndex + 3 * CHAT_PAGE_SIZE D)
          (Z.of_nat (List.length rendered)) in
  JSArray.slice msgRenderIndex endRenderIndex rendered.


(** [scrollToBottom] *)
Definition scrollToBottom (D : Deps) (renderLength : Z) : Z :=
  setMsgRenderIndex D renderLength (renderLength - CHAT_PAGE_SIZE D).

(** *** The clear-context mark *)

(** The index of the mark in the page, [-1] when there is none. *)
Definition clearContextIndexInPage (session : Session) (msgRenderIndex : Z)
  : Z :=
  let hello : Z := if botHello (bot session) =? "" then 0%Z else 1%Z in
  match clearContextIndex session with
  | Some index =>
      (Z.of_nat index
       + Z.of_nat (List.length (shownContext session))
       + hello
       - msgRenderIndex)%Z
  | None => (-1)%Z
  end.

Definition clearContext (session : Session) : Session :=
  {| messages := messages session;
     clearContextIndex :=
       match clearContextIndex session with
       | Some index =>
           if (index =? List.length (messages session))%nat then None
           else Some (List.length (messages session))
       | None => Some (List.length (messages session))
       end;
     bot := bot session |}.

End Chat.


(** A sample of the component's state: pages of fifteen messages, a timeout
    of a minute, and a session of three messages, the last of which is an
    answer that never came. *)
Module ChatSample.

Definition message (identifier : option string) (author text : string)
                   (time : Z) : Chat.ChatMessage :=
  {| Chat.id := identifier; Chat.role := author; Chat.content := text;
     Chat.date := Some time; Chat.streaming := false;
     Chat.isError := false; Chat.urlDetail := None;
     Chat.preview := false |}.

Definition deps : Chat.Deps :=
  {| Chat.CHAT_PAGE_SIZE := 15;
     Chat.REQUEST_TIMEOUT_MS := 60000;
     Chat.UnknownFileType := "Unknown";
     Chat.LoadingURL := "Loading URL...";
     Chat.emptyResponse := "{ error: true, message: empty response }";
     Chat.createMessage := fun author text => message None author text 0 |}.

Definition question : Chat.ChatMessage :=
  message (Some "m1") "user" "What is in the page?" 1000.

Definition document : Chat.ChatMessage :=
  {| Chat.id := Some "m2"; Chat.role := "user"; Chat.content := "Hello";
     Chat.date := Some 2000%Z; Chat.streaming := false;
     Chat.isError := false;
     Chat.urlDetail :=
       Some {| Chat.url := "https://example.org/page"; Chat.size := 72;
               Chat.type := "text/html" |};
     Chat.preview := false |}.

Definition pending : Chat.ChatMessage :=
  {| Chat.id := None; Chat.role := "assistant"; Chat.content := "";
     Chat.date := Some 3000%Z; Chat.streaming := true;
     Chat.isError := false; Chat.urlDetail := None;
     Chat.preview := false |}.

Definition session : Chat.Session :=
  {| Chat.messages := [question; document; pending];
     Chat.clearContextIndex := Some 2;
     Chat.bot := {| Chat.botHello := "Hello! How can I assist you today?";
                    Chat.context := [message None "system" "Be brief." 0];
                    Chat.hideContext := false |} |}.

End ChatSample.

(** ** The demo bots, lines 116 to 203 of [src/app/api/fetch/content.ts]

    A bot is a demo bot with a session.  The session type, and the empty
    session that [createEmptySession()] returns, belong to the store, which
    is not under src/; they are parameters. *)

Module Bots.

Record ChatMessage : Type := {
  role : string;
  content : string
}.

(** [temperature] is the decimal numeral of the source. *)
Record ModelConfig : Type := {
  model : string;
  temperature : Decimal.decimal;
  maxTokens : nat;
  sendMemory : bool
}.

Record DemoBot : Type := {
  id : string;
  avatar : string;
  name : string;
  botHello : string;
  context : list ChatMessage;
  modelConfig : ModelConfig;
  readOnly : bool;
  datasource : option string;
  hideContext : bool
}.

Record Bot (Session : Type) : Type := {
  demo : DemoBot;
  session : Session
}.

Arguments demo {Session} _.
Arguments session {Session} _.

Definition systemGuidelinesMessage : ChatMessage :=
  {| role := "system";
     content := "

  You are an expert medical doctor who always answers questions with the most relevant information using the tools at your disposal.
  These tools have information regarding symptoms that the user has stated. Do not hallucinate or provide false information about telephone numbers, addresses, websites, or any other information. Make sure it comes from the context provided.
  Here are some guidelines that you must follow:
  - * provide information on their specialist departments,the availability of medical coordinators and interpreters and any remote interpretation services
  - * Add details on their website for further information would be helpful. 
  - * provide a list of such hospitals with their contact details and reception hours
  - * Answer in the language of the user question


  " |}.

Definition tenths (n : Decimal.uint) : Decimal.decimal :=
  Decimal.Decimal (Decimal.Pos (Decimal.D0 Decimal.Nil)) n.

Definition DEMO_BOTS : list DemoBot :=
  [ {| id := "1";
       avatar := "1fa7a";
       name := "Mutilingual Medical Assistant in Japan";
       botHello := "Hello! How can I assist you today?";
       context := [systemGuidelinesMessage];
       modelConfig :=
         {| model := "gpt-4-1106-preview";
            temperature := tenths (Decimal.D3 Decimal.Nil);
            maxTokens := 4096;
            sendMemory := false |};
       readOnly := true;
       datasource := Some "ClinicsJapan";
       hideContext := true |};
    {| id := "2";
       avatar := "1f916";
       name := "My files";
       botHello := "Hello! How can I assist you today?";
       context := [];
       modelConfig :=
         {| model := "gpt-4-1106-preview";
            temperature := tenths (Decimal.D5 Decimal.Nil);
            maxTokens := 4096;
            sendMemory := true |};
       readOnly := false;
       datasource := None;
       hideContext := false |} ].

(** An object used as a map from strings: [map[key] = value] replaces the
    value of a key that is there and adds the key otherwise. *)
Fixpoint set {V} (key : string) (value : V) (map : list (string * V))
  : list (string * V) :=
  match map with
  | [] => [(key, value)]
  | (k, v) :: rest =>
      if k =? key then (key, value) :: rest
      else (k, v) :: set key value rest
  end.

(** [map[key]] *)
Fixpoint lookup {V} (key : string) (map : list (string * V)) : option V :=
  match map with
  | [] => None
  | (k, v) :: rest => if k =? key then Some v else lookup key rest
  end.

(** The loop of [createDemoBots] over the demo bots: the copy of a demo bot
    through JSON is the demo bot, with its optional field absent or
    present as it was. *)
Definition addDemoBots {Session} (createEmptySession : Session)
                       (demoBots : list DemoBot)
                       (map : list (string * Bot Session))
  : list (string * Bot Session) :=
  fold_left (fun map demoBot =>
               let bot := {| demo := demoBot;
                             session := createEmptySession |} in
               set (id bot.(demo)) bot map)
            demoBots map.

Definition createDemoBots {Session} (createEmptySession : Session)
  : list (string * Bot Session) :=
  addDemoBots createEmptySession DEMO_BOTS [].

End Bots.

(* ================================================================== *)
(** * Properties *)

(** ** The platform model on known values *)

Example toISOString_epoch :
  JS.toISOString (JS.Date 0) = Ok "1970-01-01T00:00:00.000Z".
Proof. reflexivity. Qed.

Example toISOString_2023 :
  JS.toISOString (JS.Date 1700000000123) = Ok "2023-11-14T22:13:20.123Z".
Proof. vm_compute. reflexivity. Qed.

Example toISOString_leap_day :
  JS.toISOString (JS.Date 951782400000) = Ok "2000-02-29T00:00:00.000Z".
Proof. vm_compute. reflexivity. Qed.

Example toISOString_before_epoch :
  JS.toISOString (JS.Date (-1)) = Ok "1969-12-31T23:59:59.999Z".
Proof. vm_compute. reflexivity. Qed.

Example toISOString_year_10000 :
  JS.toISOString (JS.Date 253402300800000)
  = Ok "+010000-01-01T00:00:00.000Z".
Proof. vm_compute. reflexivity. Qed.

Example toISOString_out_of_range :
  JS.toISOString (JS.Date 8640000000000001)
  = Err (RangeError "Invalid time value").
Proof. reflexivity. Qed.

Example parseURL_watch :
  JS.parseURL (fun _ _ => true)
              "https://www.youtube.com/watch?v=abc&t=3#frag"
  = Ok {| JS.scheme := "https"; JS.hier := "//www.youtube.com/watch";
          JS.query := Some "v=abc&t=3"; JS.fragment := Some "frag" |}.
Proof. reflexivity. Qed.

Example searchParams_decoded :
  JS.get "v" (JS.parseUrlencoded "a=1&%76=x+y%21&v=2") = Some "x y!".
Proof. reflexivity. Qed.

Example classifier_samples :
  isYouTubeLink "https://www.youtube.com/watch?v=abc" = true
  /\ isYouTubeLink "http://youtu.be/abc" = true
  /\ isYouTubeLink "youtube.com/watch?v=abc" = true
  /\ isYouTubeLink "https://example.org/watch?v=abc" = false.
Proof. repeat split. Qed.

(** ** The orchestrator *)

(** What [fetchContentFromURL] does once the first request has been
    answered. *)
Lemma fetchContentFromURL_answered (W : World) (u : string)
      (response : Response) :
  fetch W u = Ok response ->
  fetchContentFromURL W u =
  bind (request (GET u) (Ok response)) (fun response =>
    if negb (ok response) then throw FetchFailure
    else if isYouTubeLink u then viaYouTube W u
    else if JS.includes "text/html" (orEmpty (contentTypeHeader response))
    then htmlContent <- await (body response) ;;
         markdownContent <- await (htmlToMarkdown W htmlContent) ;;
         ret {| url := u; content := markdownContent;
                size := length htmlContent; type := "text/html" |}
    else if JS.includes "application/pdf"
                        (orEmpty (contentTypeHeader response))
    then pdfBuffer <- request (AxiosGET u) (axiosGet W u) ;;
         pdfData <- await (pdf W pdfBuffer) ;;
         ret {| url := u; content := pdfText pdfData;
                size := length (pdfText pdfData);
                type := "application/pdf" |}
    else throw UnsupportedType).
Proof.
  intros H. unfold fetchContentFromURL, viaYouTube. rewrite H. reflexivity.
Qed.

Lemma ok_iff (response : Response) :
  ok response = true <-> 200 <= status response <= 299.
Proof.
  unfold ok. rewrite andb_true_iff, !Nat.leb_le. reflexivity.
Qed.

(** C2. When the first request is answered with a status outside 200..299,
    [fetchContentFromURL] throws the fetch failure, the only request made is
    that first one (nothing is tried again), and no record is returned. *)
Theorem non_2xx_is_fetch_failure (W : World) (u : string)
        (response : Response) :
  fetch W u = Ok response ->
  ~ (200 <= status response <= 299) ->
  fetchContentFromURL W u = (Err FetchFailure, [GET u])
  /\ isOk (outcome (fetchContentFromURL W u)) = false.
Proof.
  intros Hfetch Hstatus.
  assert (Hok : ok response = false).
  { destruct (ok response) eqn:E; [|reflexivity].
    apply ok_iff in E. contradiction. }
  rewrite (fetchContentFromURL_answered _ _ _ Hfetch).
  unfold request, bind. rewrite Hok. simpl. split; reflexivity.
Qed.

Lemma non_2xx_is_fetch_failure_witness :
  fetchContentFromURL Sample.down "https://example.org/page"
  = (Err FetchFailure, [GET "https://example.org/page"])
  /\ isOk (outcome (fetchContentFromURL Sample.down
                      "https://example.org/page")) = false.
Proof.
  apply (@non_2xx_is_fetch_failure Sample.down "https://example.org/page"
           Sample.notFound).
  - reflexivity.
  - simpl. lia.
Defined.

(** C5. A successful answer that is not for a YouTube link and whose
    content type contains [text/html] gives a record whose content is the
    markdown of the body, whose type is [text/html] and whose size is the
    length of the body before conversion. *)
Theorem html_size_is_raw_length (W : World) (u : string)
        (response : Response) (htmlContent markdownContent : string) :
  fetch W u = Ok response ->
  ok response = true ->
  isYouTubeLink u = false ->
  JS.includes "text/html" (orEmpty (contentTypeHeader response)) = true ->
  body response = Ok htmlContent ->
  htmlToMarkdown W htmlContent = Ok markdownContent ->
  fetchContentFromURL W u
  = (Ok {| url := u; content := markdownContent;
           size := length htmlContent; type := "text/html" |}, [GET u]).
Proof.
  intros Hfetch Hok Hyt Hct Hbody Hmd.
  rewrite (fetchContentFromURL_answered _ _ _ Hfetch).
  unfold request, bind. rewrite Hok, Hyt, Hct, Hbody. simpl.
  rewrite Hmd. reflexivity.
Qed.

Lemma html_size_is_raw_length_witness :
  fetchContentFromURL Sample.world "https://example.org/page"
  = (Ok {| url := "https://example.org/page";
           content := String "H" (String "e" (String "l" (String "l"
                        (String "o" (String "010" "")))));
           size := length Sample.page; type := "text/html" |},
     [GET "https://example.org/page"]).
Proof.
  apply (@html_size_is_raw_length Sample.world "https://example.org/page"
           (Sample.response 200 (Some "text/html; charset=utf-8")
                            Sample.page));
    vm_compute; reflexivity.
Defined.

(** The size of an HTML record and the length of its content differ in the
    sample world: 72 characters of HTML, 6 of markdown. *)
Lemma html_size_differs_from_content_length :
  exists r,
    outcome (fetchContentFromURL Sample.world "https://example.org/page")
    = Ok r
    /\ size r = 72 /\ length (content r) = 6.
Proof. eexists. split; [vm_compute; reflexivity|]. split; reflexivity. Qed.

(** C7. A PDF extraction returns the type [application/pdf] and a size that
    is the length of the extracted text, on each of its two paths.  On the
    URL path, where the content type contains [application/pdf] and the
    document is requested a second time as a buffer, the record carries the
    URL.  On the buffer path nothing is requested: whatever buffer is handed
    over, served by a URL or not, the three fields come from the text
    extracted from it. *)
Theorem pdf_size_is_content_length :
  (forall (W : World) (u : string) (response : Response)
          (pdfBuffer : Buffer) (data : PdfData),
     fetch W u = Ok response ->
     ok response = true ->
     isYouTubeLink u = false ->
     JS.includes "text/html" (orEmpty (contentTypeHeader response)) = false ->
     JS.includes "application/pdf" (orEmpty (contentTypeHeader response))
     = true ->
     axiosGet W u = Ok pdfBuffer ->
     pdf W pdfBuffer = Ok data ->
     exists r,
       fetchContentFromURL W u = (Ok r, [GET u; AxiosGET u])
       /\ url r = u /\ content r = pdfText data
       /\ type r = "application/pdf" /\ size r = length (content r))
  /\ (forall (W : World) (pdfBuffer : Buffer) (data : PdfData),
        pdf W pdfBuffer = Ok data ->
        exists r,
          getPDFContentFromBuffer W pdfBuffer = (Ok r, [])
          /\ pdfContent r = pdfText data
          /\ pdfType r = "application/pdf"
          /\ pdfSize r = length (pdfContent r)).
Proof.
  split.
  - intros W u response pdfBuffer data Hfetch Hok Hyt Hhtml Hpdf Hget Hdata.
    rewrite (fetchContentFromURL_answered _ _ _ Hfetch).
    unfold request, bind. rewrite Hok, Hyt, Hhtml, Hpdf, Hget. simpl.
    rewrite Hdata. simpl. eexists. split; [reflexivity|]. simpl. auto.
  - intros W pdfBuffer data Hdata.
    unfold getPDFContentFromBuffer, await, bind. rewrite Hdata. simpl.
    eexists. split; [reflexivity|]. simpl. auto.
Qed.

(** The URL path in the sample world; the buffer path in the world where
    every request is answered 404, for a buffer that no URL serves. *)
Lemma pdf_size_is_content_length_witness :
  (exists r,
     fetchContentFromURL Sample.world "https://example.org/paper.pdf"
     = (Ok r, [GET "https://example.org/paper.pdf";
               AxiosGET "https://example.org/paper.pdf"])
     /\ url r = "https://example.org/paper.pdf"
     /\ content r = "A paper"
     /\ type r = "application/pdf" /\ size r = length (content r))
  /\ (exists r,
        getPDFContentFromBuffer Sample.down [Byte.x00; Byte.x01] = (Ok r, [])
        /\ pdfContent r = "A paper"
        /\ pdfType r = "application/pdf"
        /\ pdfSize r = length (pdfContent r)).
Proof.
  destruct pdf_size_is_content_length as [Hurl Hbuffer]. split.
  - apply (Hurl Sample.world "https://example.org/paper.pdf"
             (Sample.response 200 (Some "application/pdf") "%PDF-1.7")
             [Byte.x25; Byte.x50; Byte.x44; Byte.x46]
             {| pdfText := "A paper" |});
      vm_compute; reflexivity.
  - apply (Hbuffer Sample.down [Byte.x00; Byte.x01]
             {| pdfText := "A paper" |}).
    reflexivity.
Defined.

(** C8. A successful answer that is not for a YouTube link and whose
    content type contains neither [text/html] nor [application/pdf] makes
    [fetchContentFromURL] throw the unsupported-type error after the one
    request; no record is returned. *)
Theorem other_type_is_unsupported (W : World) (u : string)
        (response : Response) :
  fetch W u = Ok response ->
  ok response = true ->
  isYouTubeLink u = false ->
  JS.includes "text/html" (orEmpty (contentTypeHeader response)) = false ->
  JS.includes "application/pdf" (orEmpty (contentTypeHeader response))
  = false ->
  fetchContentFromURL W u = (Err UnsupportedType, [GET u])
  /\ isOk (outcome (fetchContentFromURL W u)) = false.
Proof.
  intros Hfetch Hok Hyt Hhtml Hpdf.
  rewrite (fetchContentFromURL_answered _ _ _ Hfetch).
  unfold request, bind. rewrite Hok, Hyt, Hhtml, Hpdf. simpl.
  split; reflexivity.
Qed.

Lemma other_type_is_unsupported_witness :
  fetchContentFromURL Sample.world "https://example.org/data.json"
  = (Err UnsupportedType, [GET "https://example.org/data.json"])
  /\ isOk (outcome (fetchContentFromURL Sample.world
                      "https://example.org/data.json")) = false.
Proof.
  apply (@other_type_is_unsupported Sample.world
           "https://example.org/data.json"
           (Sample.response 200 (Some "application/json") "{}"));
    vm_compute; reflexivity.
Defined.

(** ** Pattern matching by derivatives is matching *)

Lemma append_empty_r (s : string) : s ++ "" = s.
Proof. induction s; simpl; congruence. Qed.

Lemma append_assoc (a b c : string) : (a ++ b) ++ c = a ++ (b ++ c).
Proof. induction a; simpl; congruence. Qed.

Lemma append_eq_empty (a b : string) : a ++ b = "" -> a = "" /\ b = "".
Proof. destruct a; simpl; [auto | discriminate]. Qed.

Lemma Lang_seq_inv (r1 r2 : JS.regex) (w : string) :
  JS.Lang (JS.Seq r1 r2) w ->
  exists w1 w2, w = w1 ++ w2 /\ JS.Lang r1 w1 /\ JS.Lang r2 w2.
Proof. intros H. inversion H; subst. eauto. Qed.

Lemma Lang_alt_inv (r1 r2 : JS.regex) (w : string) :
  JS.Lang (JS.Alt r1 r2) w -> JS.Lang r1 w \/ JS.Lang r2 w.
Proof. intros H. inversion H; subst; auto. Qed.

Lemma nullable_Lang (r : JS.regex) :
  JS.nullable r = true <-> JS.Lang r "".
Proof.
  induction r; simpl.
  - split; [discriminate | intros H; inversion H].
  - split; [constructor | reflexivity].
  - split; [discriminate | intros H; inversion H].
  - split; [discriminate | intros H; inversion H].
  - rewrite andb_true_iff, IHr1, IHr2. split.
    + intros [H1 H2]. change "" with ("" ++ ""). constructor; assumption.
    + intros H. apply Lang_seq_inv in H.
      destruct H as (w1 & w2 & E & H1 & H2). symmetry in E.
      apply append_eq_empty in E. destruct E; subst. auto.
  - rewrite orb_true_iff, IHr1, IHr2. split.
    + intros [H | H]; [apply JS.LAltL | apply JS.LAltR]; assumption.
    + apply Lang_alt_inv.
  - split; [constructor | reflexivity].
Qed.

Lemma deriv_sound (r : JS.regex) :
  forall a s, JS.Lang (JS.deriv a r) s -> JS.Lang r (String a s).
Proof.
  induction r; intros a s H; simpl in H.
  - inversion H.
  - inversion H.
  - destruct (Ascii.eqb_spec a c); inversion H; subst. constructor.
  - destruct (JS.lineTerminator a) eqn:E; inversion H; subst.
    constructor. assumption.
  - destruct (JS.nullable r1) eqn:E.
    + apply Lang_alt_inv in H. destruct H as [H | H].
      * apply Lang_seq_inv in H. destruct H as (w1 & w2 & -> & H1 & H2).
        change (String a (w1 ++ w2)) with (String a w1 ++ w2).
        constructor; auto.
      * change (String a s) with ("" ++ String a s).
        constructor; [apply nullable_Lang; assumption | auto].
    + apply Lang_seq_inv in H. destruct H as (w1 & w2 & -> & H1 & H2).
      change (String a (w1 ++ w2)) with (String a w1 ++ w2).
      constructor; auto.
  - apply Lang_alt_inv in H.
    destruct H as [H | H]; [apply JS.LAltL | apply JS.LAltR]; auto.
  - apply Lang_seq_inv in H. destruct H as (w1 & w2 & -> & H1 & H2).
    change (String a (w1 ++ w2)) with (String a w1 ++ w2).
    constructor; auto.
Qed.

Lemma deriv_complete (r : JS.regex) (w : string) :
  JS.Lang r w ->
  forall x t, w = String x t -> JS.Lang (JS.deriv x r) t.
Proof.
  induction 1 as [| c | c Hc | r1 r2 s1 s2 H1 IH1 H2 IH2 | r1 r2 s H IH
                 | r1 r2 s H IH | r | r s1 s2 H1 IH1 H2 IH2];
    intros x t E; simpl.
  - discriminate.
  - injection E as <- <-. rewrite Ascii.eqb_refl. constructor.
  - injection E as <- <-. rewrite Hc. constructor.
  - destruct s1 as [| b s1']; simpl in E.
    + subst s2. assert (N : JS.nullable r1 = true)
        by (apply nullable_Lang; assumption).
      rewrite N. apply JS.LAltR. apply IH2. reflexivity.
    + injection E as -> <-.
      assert (L : JS.Lang (JS.Seq (JS.deriv x r1) r2) (s1' ++ s2))
        by (constructor; [apply IH1; reflexivity | assumption]).
      destruct (JS.nullable r1); [apply JS.LAltL|]; exact L.
  - apply JS.LAltL. auto.
  - apply JS.LAltR. auto.
  - discriminate.
  - destruct s1 as [| b s1']; simpl in E.
    + apply IH2 in E. exact E.
    + injection E as -> <-. constructor; [apply IH1; reflexivity|].
      assumption.
Qed.

Lemma matches_Lang (s : string) :
  forall r, JS.matches r s = true <-> JS.Lang r s.
Proof.
  induction s as [| a s IH]; intros r; simpl.
  - apply nullable_Lang.
  - rewrite IH. split.
    + apply deriv_sound.
    + intros H. eapply deriv_complete; [eassumption | reflexivity].
Qed.

(** [test] succeeds exactly when a prefix is a word of the pattern. *)
Lemma test_Lang (s : string) :
  forall r, JS.test r s = true <-> exists p q, s = p ++ q /\ JS.Lang r p.
Proof.
  induction s as [| a s IH]; intros r; simpl.
  - rewrite orb_false_r, nullable_Lang. split.
    + intros H. exists "", "". auto.
    + intros (p & q & E & H). symmetry in E.
      apply append_eq_empty in E. destruct E; subst. assumption.
  - rewrite orb_true_iff, IH, nullable_Lang. split.
    + intros [H | (p & q & -> & H)].
      * exists "", (String a s). auto.
      * exists (String a p), q. split; [reflexivity|].
        apply deriv_sound. assumption.
    + intros (p & q & E & H). destruct p as [| b p]; simpl in E.
      * left. assumption.
      * injection E as <- ->. right. exists p, q. split; [reflexivity|].
        eapply deriv_complete; [eassumption | reflexivity].
Qed.

(** ** The classifier *)

Lemma Lang_chr_inv (c : ascii) (w : string) :
  JS.Lang (JS.Chr c) w -> w = String c "".
Proof. intros H. inversion H. reflexivity. Qed.

Lemma Lang_dot_inv (w : string) :
  JS.Lang JS.Dot w -> exists x, w = String x "".
Proof. intros H. inversion H. eauto. Qed.

(** A word of [pattern] is a word of [hostPart], a slash and at least one
    more character. *)
Lemma pattern_shape (p : string) :
  JS.Lang pattern p ->
  exists pre x t,
    p = pre ++ String "/" (String x t) /\ JS.Lang hostPart pre.
Proof.
  intros H. unfold pattern in H.
  apply Lang_seq_inv in H. destruct H as (a & w1 & -> & Ha & H).
  apply Lang_seq_inv in H. destruct H as (b & w2 & -> & Hb & H).
  apply Lang_seq_inv in H. destruct H as (c & w3 & -> & Hc & H).
  apply Lang_seq_inv in H. destruct H as (d & w4 & -> & Hd & H).
  apply Lang_seq_inv in H. destruct H as (e & w5 & -> & He & H).
  apply Lang_seq_inv in H. destruct H as (sl & w6 & -> & Hsl & H).
  apply Lang_chr_inv in Hsl. subst sl.
  unfold JS.Plus in H.
  apply Lang_seq_inv in H. destruct H as (d1 & t & -> & Hd1 & _).
  apply Lang_dot_inv in Hd1. destruct Hd1 as (x & ->).
  exists (a ++ b ++ c ++ d ++ e), x, t. split.
  - rewrite !append_assoc. reflexivity.
  - unfold hostPart. repeat (constructor; try assumption).
Qed.

(** In [h/] with [h] free of slashes, no slash is followed by a
    character. *)
Lemma no_inner_slash (h : string) :
  slashFree h = true ->
  forall pre x rest, h ++ "/" = pre ++ String "/" (String x rest) -> False.
Proof.
  induction h as [| c h IH]; simpl; intros Hfree pre x rest E.
  - destruct pre as [| c' pre]; simpl in E; [discriminate|].
    injection E as _ E. destruct pre; discriminate.
  - apply andb_true_iff in Hfree. destruct Hfree as [Hc Hh].
    destruct pre as [| c' pre]; simpl in E.
    + injection E as -> _. discriminate.
    + injection E as _ E. eapply IH; eassumption.
Qed.

Ltac peel pre E :=
  destruct pre as [| ? pre]; simpl in E;
  [ try discriminate | injection E as ? E; subst ].

Ltac not_a_host H :=
  apply matches_Lang in H; vm_compute in H; discriminate.

(** The classifier wants a character after the slash that ends the host:
    [h/] is rejected, with or without scheme, whatever the host [h]. *)
Lemma isYouTubeLink_needs_path (scheme host : string) :
  scheme = "" \/ scheme = "http://" \/ scheme = "https://" ->
  slashFree host = true ->
  isYouTubeLink (scheme ++ host ++ "/") = false.
Proof.
  intros Hscheme Hfree. unfold isYouTubeLink.
  destruct (JS.test pattern (scheme ++ host ++ "/")) eqn:T; [|reflexivity].
  exfalso. apply test_Lang in T. destruct T as (p & q & E & Hp).
  apply pattern_shape in Hp. destruct Hp as (pre & x & t & -> & Hpre).
  rewrite append_assoc in E. simpl in E.
  destruct Hscheme as [-> | [-> | ->]]; simpl in E.
  - eapply no_inner_slash; eassumption.
  - do 5 (peel pre E). peel pre E; [not_a_host Hpre|].
    peel pre E; [not_a_host Hpre|].
    eapply no_inner_slash; eassumption.
  - do 6 (peel pre E). peel pre E; [not_a_host Hpre|].
    peel pre E; [not_a_host Hpre|].
    eapply no_inner_slash; eassumption.
Qed.

(** A URL that is not a YouTube link is dispatched by content type. *)
Lemma not_youtube_dispatch (W : World) (u : string) :
  isYouTubeLink u = false -> dispatched W u.
Proof.
  intros Hyt. unfold dispatched.
  assert (Hfail : forall response,
             fetch W u = Ok response -> ok response = false ->
             fetchContentFromURL W u = (Err FetchFailure, [GET u])).
  { intros response Hfetch Hok.
    rewrite (fetchContentFromURL_answered _ _ _ Hfetch).
    unfold request, bind. rewrite Hok. reflexivity. }
  assert (Hother : forall response,
             fetch W u = Ok response -> ok response = true ->
             JS.includes "text/html" (orEmpty (contentTypeHeader response))
             = false ->
             JS.includes "application/pdf"
                         (orEmpty (contentTypeHeader response)) = false ->
             fetchContentFromURL W u = (Err UnsupportedType, [GET u])).
  { intros response Hfetch Hok Hhtml Hpdf.
    rewrite (fetchContentFromURL_answered _ _ _ Hfetch).
    unfold request, bind. rewrite Hok, Hyt, Hhtml, Hpdf. reflexivity. }
  cut ((forall id,
          ~ In (FetchTranscript id) (trace (fetchContentFromURL W u)))
       /\ (forall r,
             outcome (fetchContentFromURL W u) = Ok r ->
             exists response,
               fetch W u = Ok response /\ ok response = true
               /\ ((JS.includes "text/html"
                      (orEmpty (contentTypeHeader response)) = true
                    /\ type r = "text/html")
                   \/ (JS.includes "application/pdf"
                         (orEmpty (contentTypeHeader response)) = true
                       /\ type r = "application/pdf")))).
  { intros [A B]. auto. }
  clear Hfail Hother.
  destruct (fetch W u) as [response | e] eqn:Hfetch.
  2:{ unfold fetchContentFromURL. rewrite Hfetch. simpl. split.
      - intros id [H | []]. discriminate.
      - intros r H. discriminate. }
  rewrite (fetchContentFromURL_answered _ _ _ Hfetch).
  unfold request, bind, await, throw, ret, outcome, trace.
  rewrite Hyt.
  destruct (ok response) eqn:Hok; simpl.
  2:{ split; [intros id [H | []]; discriminate | intros r H; discriminate]. }
  destruct (JS.includes "text/html" _) eqn:Hhtml.
  { destruct (body response) as [htmlContent | e]; simpl.
    2:{ split; [intros id [H | []]; discriminate
               | intros r H; discriminate]. }
    destruct (htmlToMarkdown W htmlContent) as [md | e]; simpl.
    2:{ split; [intros id [H | []]; discriminate
               | intros r H; discriminate]. }
    split; [intros id [H | []]; discriminate|].
    intros r H. injection H as <-. exists response. simpl. auto. }
  destruct (JS.includes "application/pdf" _) eqn:Hpdf.
  { destruct (axiosGet W u) as [buffer | e]; simpl.
    2:{ split; [intros id [H | [H | []]]; discriminate
               | intros r H; discriminate]. }
    destruct (pdf W buffer) as [data | e]; simpl.
    2:{ split; [intros id [H | [H | []]]; discriminate
               | intros r H; discriminate]. }
    split; [intros id [H | [H | []]]; discriminate|].
    intros r H. injection H as <-. exists response. simpl. auto. }
  simpl. split; [intros id [H | []]; discriminate | intros r H; discriminate].
Qed.

(** C9. The classifier asks for at least one character after the slash that
    ends the host: a URL made of an optional [http://] or [https://], a host
    and a final slash is not a YouTube link.  So [fetchContentFromURL]
    never asks the captions provider about it: a record it returns is the
    HTML or the PDF one that the content type of the answer selects, an
    answer that is no success is a fetch failure, and a content type that
    selects nothing is unsupported. *)
Theorem empty_path_is_not_youtube (W : World) (scheme host : string) :
  scheme = "" \/ scheme = "http://" \/ scheme = "https://" ->
  slashFree host = true ->
  isYouTubeLink (scheme ++ host ++ "/") = false
  /\ dispatched W (scheme ++ host ++ "/").
Proof.
  intros Hscheme Hfree.
  pose proof (isYouTubeLink_needs_path _ _ Hscheme Hfree) as Hno.
  split; [exact Hno|]. apply not_youtube_dispatch. exact Hno.
Qed.

Lemma empty_path_is_not_youtube_witness :
  isYouTubeLink ("https://" ++ "youtu.be" ++ "/") = false
  /\ dispatched Sample.world ("https://" ++ "youtu.be" ++ "/").
Proof.
  apply (@empty_path_is_not_youtube Sample.world "https://" "youtu.be").
  - right. right. reflexivity.
  - reflexivity.
Defined.

(** The two URLs the claim names, and what the sample world does with the
    first: its answer is JSON, so the type is unsupported. *)
Example youtu_be_empty_path : isYouTubeLink "https://youtu.be/" = false.
Proof. reflexivity. Qed.

Example youtube_com_empty_path : isYouTubeLink "https://youtube.com/" = false.
Proof. reflexivity. Qed.

Example youtu_be_by_content_type :
  fetchContentFromURL Sample.world "https://youtu.be/"
  = (Err UnsupportedType, [GET "https://youtu.be/"]).
Proof. reflexivity. Qed.

(** ** The YouTube branch *)

Lemma watch_is_youtube_link (id : string) :
  isYouTubeLink ("https://www.youtube.com/watch?v=" ++ id) = true
  /\ isYouTubeLink ("https://youtube.com/watch?v=" ++ id) = true.
Proof. split; vm_compute; reflexivity. Qed.

(** C1, as the code has it.  For a URL [https://www.youtube.com/watch?v=id]
    or [https://youtube.com/watch?v=id] and an answer with a status in
    200..299, the URL is classified as a YouTube link and the result is the
    transcript extractor's, whatever the content type and the body of the
    answer: its requests follow the first one, its failure is the failure,
    and its text [srtContent] comes back as
    [{url, content: srtContent, size: srtContent.length, type: "text/plain"}]. *)
Theorem youtube_link_delegates (W : World) (id u : string)
        (response : Response) :
  u = "https://www.youtube.com/watch?v=" ++ id
  \/ u = "https://youtube.com/watch?v=" ++ id ->
  fetch W u = Ok response ->
  ok response = true ->
  isYouTubeLink u = true
  /\ fetchContentFromURL W u
     = (match outcome (getYouTubeSubtitles W u) with
        | Ok srtContent =>
            Ok {| url := u; content := srtContent;
                  size := length srtContent; type := "text/plain" |}
        | Err e => Err e
        end,
        GET u :: trace (getYouTubeSubtitles W u)).
Proof.
  intros Hu Hfetch Hok.
  assert (Hyt : isYouTubeLink u = true)
    by (destruct Hu as [-> | ->]; apply watch_is_youtube_link).
  split; [exact Hyt|].
  rewrite (fetchContentFromURL_answered _ _ _ Hfetch).
  unfold request, bind, viaYouTube, outcome, trace. rewrite Hok, Hyt. simpl.
  destruct (getYouTubeSubtitles W u) as [[srt | e] t]; simpl.
  - rewrite app_nil_r. reflexivity.
  - reflexivity.
Qed.

Lemma youtube_link_delegates_witness :
  isYouTubeLink "https://www.youtube.com/watch?v=abc" = true
  /\ fetchContentFromURL Sample.world "https://www.youtube.com/watch?v=abc"
     = (match outcome (getYouTubeSubtitles Sample.world
                         "https://www.youtube.com/watch?v=abc") with
        | Ok srtContent =>
            Ok {| url := "https://www.youtube.com/watch?v=abc";
                  content := srtContent;
                  size := length srtContent; type := "text/plain" |}
        | Err e => Err e
        end,
        GET "https://www.youtube.com/watch?v=abc"
        :: trace (getYouTubeSubtitles Sample.world
                    "https://www.youtube.com/watch?v=abc")).
Proof.
  apply (@youtube_link_delegates Sample.world "abc"
           "https://www.youtube.com/watch?v=abc"
           (Sample.response 200 (Some "text/html") "<html></html>")).
  - left. reflexivity.
  - reflexivity.
  - reflexivity.
Defined.

(** C1, as it is stated, fails: it holds for no answer whatever, only for
    the successful ones.  In the world where every request is answered 404
    the extractor would return a transcript, and [fetchContentFromURL]
    throws the fetch failure without asking for it. *)
Lemma youtube_link_not_found_counterexample :
  ~ (forall (W : World) (id u : string) (response : Response),
       u = "https://www.youtube.com/watch?v=" ++ id
       \/ u = "https://youtube.com/watch?v=" ++ id ->
       fetch W u = Ok response ->
       fetchContentFromURL W u
       = (match outcome (getYouTubeSubtitles W u) with
          | Ok srtContent =>
              Ok {| url := u; content := srtContent;
                    size := length srtContent; type := "text/plain" |}
          | Err e => Err e
          end,
          GET u :: trace (getYouTubeSubtitles W u))).
Proof.
  intros H.
  specialize (H Sample.down "abc" "https://www.youtube.com/watch?v=abc"
                Sample.notFound (or_introl eq_refl) eq_refl).
  vm_compute in H. discriminate.
Qed.

Example youtube_link_not_found :
  fetchContentFromURL Sample.down "https://www.youtube.com/watch?v=abc"
  = (Err FetchFailure, [GET "https://www.youtube.com/watch?v=abc"]).
Proof. reflexivity. Qed.

Lemma getYouTubeSubtitles_parsed (W : World) (u : string) (parsed : JS.URL) :
  JS.parseURL (hierOk W) u = Ok parsed ->
  getYouTubeSubtitles W u
  = if falsy (JS.get "v" (JS.searchParams parsed))
    then (Err InvalidInput, [])
    else
      let id := match JS.get "v" (JS.searchParams parsed) with
                | Some s => s
                | None => ""
                end in
      (andThen (fetchTranscript W id) (fun transcript =>
         forEach transcript 0 ""), [FetchTranscript id]).
Proof.
  intros H. unfold getYouTubeSubtitles, await, request, bind, throw.
  rewrite H.
  destruct (falsy (JS.get "v" (JS.searchParams parsed))); [reflexivity|].
  cbv zeta. destruct (fetchTranscript W _); reflexivity.
Qed.

Lemma getYouTubeSubtitles_unparsed (W : World) (u : string) (e : Error) :
  JS.parseURL (hierOk W) u = Err e ->
  getYouTubeSubtitles W u = (Err e, []).
Proof.
  intros H. unfold getYouTubeSubtitles, await, bind. rewrite H. reflexivity.
Qed.

(** C6, as the code has it.  When the URL parses and its query has no [v]
    parameter, or an empty one, the transcript extractor throws the
    invalid-input error, and does so before asking the captions provider. *)
Theorem missing_v_is_invalid_input (W : World) (u : string)
        (parsed : JS.URL) :
  JS.parseURL (hierOk W) u = Ok parsed ->
  JS.get "v" (JS.searchParams parsed) = None
  \/ JS.get "v" (JS.searchParams parsed) = Some "" ->
  getYouTubeSubtitles W u = (Err InvalidInput, []).
Proof.
  intros Hparse Hv. rewrite (getYouTubeSubtitles_parsed _ _ _ Hparse).
  destruct Hv as [-> | ->]; reflexivity.
Qed.

Lemma missing_v_is_invalid_input_witness :
  getYouTubeSubtitles Sample.world "https://youtu.be/"
  = (Err InvalidInput, []).
Proof.
  apply (@missing_v_is_invalid_input Sample.world "https://youtu.be/"
           {| JS.scheme := "https"; JS.hier := "//youtu.be/";
              JS.query := None; JS.fragment := None |}).
  - reflexivity.
  - left. reflexivity.
Defined.

(** The URL the claim names, in every world whose URL parser accepts the
    host [youtu.be]. *)
Lemma youtu_be_is_invalid_input (W : World) :
  hierOk W "https" "//youtu.be/" = true ->
  getYouTubeSubtitles W "https://youtu.be/" = (Err InvalidInput, []).
Proof.
  intros H.
  rewrite (getYouTubeSubtitles_parsed W _
             {| JS.scheme := "https"; JS.hier := "//youtu.be/";
                JS.query := None; JS.fragment := None |}).
  - reflexivity.
  - vm_compute. vm_compute in H. rewrite H. reflexivity.
Qed.

(** C6, as it is stated, fails: [youtube.com/watch] is a YouTube link from
    which no [v] can be parsed, and the extractor throws the URL parser's
    error, not the invalid-input one. *)
Lemma missing_v_schemeless_counterexample :
  ~ (forall (W : World) (u : string),
       isYouTubeLink u = true ->
       (forall parsed v,
          JS.parseURL (hierOk W) u = Ok parsed ->
          JS.get "v" (JS.searchParams parsed) <> Some v) ->
       outcome (getYouTubeSubtitles W u) = Err InvalidInput).
Proof.
  intros H.
  specialize (H Sample.world "youtube.com/watch" eq_refl).
  assert (E : outcome (getYouTubeSubtitles Sample.world "youtube.com/watch")
              = Err (TypeError "Invalid URL")) by reflexivity.
  rewrite E in H.
  assert (F : Err (A := string) (TypeError "Invalid URL") = Err InvalidInput).
  { apply H. intros parsed v Hp. discriminate Hp. }
  discriminate F.
Qed.

(** ** URLs without a scheme *)

Lemma schemeState_colonFree (s : string) :
  colonFree s = true -> forall buffer, JS.schemeState buffer s = None.
Proof.
  induction s as [| c s IH]; simpl; intros H buffer; [reflexivity|].
  apply andb_true_iff in H. destruct H as [Hc Hs].
  destruct (JS.asciiAlpha c || JS.asciiDigit c || (c =? "+")%char
            || (c =? "-")%char || (c =? ".")%char).
  - apply IH. exact Hs.
  - destruct (c =? ":")%char; [discriminate | reflexivity].
Qed.

Lemma trimStart_colonFree (s : string) :
  colonFree s = true -> colonFree (JS.trimStart s) = true.
Proof.
  induction s as [| c s IH]; simpl; intros H; [reflexivity|].
  destruct (JS.c0OrSpace c); [|exact H].
  apply andb_true_iff in H. apply IH. apply H.
Qed.

Lemma revAppend_colonFree (s : string) :
  forall acc, colonFree s = true -> colonFree acc = true ->
              colonFree (JS.revAppend s acc) = true.
Proof.
  induction s as [| c s IH]; simpl; intros acc H Hacc; [exact Hacc|].
  apply andb_true_iff in H. destruct H as [Hc Hs].
  apply IH; [exact Hs|]. simpl. rewrite Hc, Hacc. reflexivity.
Qed.

Lemma removeTabNewline_colonFree (s : string) :
  colonFree s = true -> colonFree (JS.removeTabNewline s) = true.
Proof.
  induction s as [| c s IH]; simpl; intros H; [reflexivity|].
  apply andb_true_iff in H. destruct H as [Hc Hs].
  destruct (JS.tabOrNewline c); [auto|]. simpl. rewrite Hc. auto.
Qed.

(** A URL with no colon has no scheme. *)
Lemma colonFree_schemeless (u : string) :
  colonFree u = true -> schemeless u = true.
Proof.
  intros H. unfold schemeless.
  assert (C : colonFree (JS.removeTabNewline (JS.trimEnd (JS.trimStart u)))
              = true).
  { apply removeTabNewline_colonFree. unfold JS.trimEnd, JS.reverse.
    apply revAppend_colonFree; [|reflexivity].
    apply trimStart_colonFree.
    apply revAppend_colonFree; [|reflexivity].
    apply trimStart_colonFree. exact H. }
  destruct (JS.removeTabNewline _) as [| c s]; [reflexivity|].
  simpl in *. apply andb_true_iff in C. destruct C as [_ Cs].
  destruct (JS.asciiAlpha c); [|reflexivity].
  rewrite (schemeState_colonFree _ Cs). reflexivity.
Qed.

(** C10. A URL that the classifier accepts and that has no scheme makes the
    transcript extractor throw the URL parser's error: not the invalid-input
    error, no transcript, and no request to the captions provider. *)
Theorem schemeless_link_is_parse_error (W : World) (u : string) :
  isYouTubeLink u = true ->
  schemeless u = true ->
  getYouTubeSubtitles W u = (Err (TypeError "Invalid URL"), [])
  /\ outcome (getYouTubeSubtitles W u) <> Err InvalidInput
  /\ isOk (outcome (getYouTubeSubtitles W u)) = false.
Proof.
  intros _ Hs.
  assert (E : getYouTubeSubtitles W u = (Err (TypeError "Invalid URL"), [])).
  { apply getYouTubeSubtitles_unparsed. unfold JS.parseURL.
    unfold schemeless in Hs.
    destruct (JS.schemeStartState _); [discriminate | reflexivity]. }
  rewrite E. simpl. split; [reflexivity|]. split; [discriminate|reflexivity].
Qed.

Lemma schemeless_link_is_parse_error_witness :
  getYouTubeSubtitles Sample.world "youtube.com/watch?v=abc"
  = (Err (TypeError "Invalid URL"), [])
  /\ outcome (getYouTubeSubtitles Sample.world "youtube.com/watch?v=abc")
     <> Err InvalidInput
  /\ isOk (outcome (getYouTubeSubtitles Sample.world
                      "youtube.com/watch?v=abc")) = false.
Proof.
  apply (@schemeless_link_is_parse_error Sample.world
           "youtube.com/watch?v=abc"); reflexivity.
Defined.

(** With a colon matched by one of the pattern's wildcards the URL has a
    scheme, and the extractor goes on to the captions provider. *)
Example wildcard_colon_has_scheme :
  isYouTubeLink "www:youtube.com/watch?v=abc" = true
  /\ schemeless "www:youtube.com/watch?v=abc" = false
  /\ trace (getYouTubeSubtitles Sample.world "www:youtube.com/watch?v=abc")
     = [FetchTranscript "abc"].
Proof. repeat split. Qed.

(** ** Pruning the tree *)

(** Induction on a node, with the hypothesis for all the children. *)
Lemma Node_induction (P : Hast.Node -> Prop) :
  (forall tag props cs, Forall P cs -> P (Hast.Element tag props cs)) ->
  (forall v, P (Hast.Text v)) ->
  (forall v, P (Hast.Comment v)) ->
  P Hast.Doctype ->
  forall n, P n.
Proof.
  intros HE HT HC HD. fix IH 1.
  intros [tag props cs | v | v |]; [| apply HT | apply HC | apply HD].
  apply HE. induction cs as [| c cs IHcs]; constructor;
    [apply IH | exact IHcs].
Qed.

Lemma preorder_element (pass : Hast.Node -> bool) (cascade : bool)
      (tag : string) (props : list (string * string))
      (cs : list Hast.Node) :
  Hast.preorder pass cascade (Hast.Element tag props cs)
  = if pass (Hast.Element tag props cs) then None
    else match cs with
         | [] => Some (Hast.Element tag props [])
         | _ :: _ =>
             match Hast.keep pass cascade cs with
             | [] => if cascade then None
                     else Some (Hast.Element tag props [])
             | k :: ks => Some (Hast.Element tag props (k :: ks))
             end
         end.
Proof.
  destruct cs as [| c cs]; [reflexivity|].
  transitivity
    (if pass (Hast.Element tag props (c :: cs)) then None
     else match Hast.keep pass cascade (c :: cs) with
          | [] => if cascade then None
                  else Some (Hast.Element tag props [])
          | _ :: _ =>
              Some (Hast.Element tag props
                      (Hast.keep pass cascade (c :: cs)))
          end); [reflexivity|].
  destruct (pass _); [reflexivity|].
  destruct (Hast.keep pass cascade (c :: cs)); reflexivity.
Qed.

Lemma nodes_element (tag : string) (props : list (string * string))
      (cs : list Hast.Node) :
  Hast.nodes (Hast.Element tag props cs)
  = Hast.Element tag props cs :: Hast.allNodes cs.
Proof. reflexivity. Qed.

Lemma proseTexts_element (tag : string) (props : list (string * string))
      (cs : list Hast.Node) :
  Hast.proseTexts (Hast.Element tag props cs)
  = if tag =? "table" then [] else Hast.allProseTexts cs.
Proof. reflexivity. Qed.

Lemma textValues_app (xs ys : list Hast.Node) :
  Hast.textValues (xs ++ ys)
  = (Hast.textValues xs ++ Hast.textValues ys)%list.
Proof.
  induction xs as [| x xs IH]; simpl; [reflexivity|].
  destruct x; simpl; rewrite IH; reflexivity.
Qed.

Lemma sameHead_refl (m : Hast.Node) : sameHead m m.
Proof. destruct m; simpl; auto. Qed.

Lemma sameHead_hasType (t : string) (m m' : Hast.Node) :
  sameHead m m' -> Hast.hasType t m' = Hast.hasType t m.
Proof. destruct m, m'; simpl; intros H; try contradiction; reflexivity. Qed.

Lemma sameHead_hasTagName (t : string) (m m' : Hast.Node) :
  sameHead m m' -> Hast.hasTagName t m' = Hast.hasTagName t m.
Proof.
  destruct m, m'; simpl; intros H; try contradiction; try reflexivity.
  destruct H as [-> _]. reflexivity.
Qed.

Section Removal.

Variable pass : Hast.Node -> bool.
Variable cascade : bool.

Lemma keep_origin (cs : list Hast.Node) :
  Forall (fun c => forall c', Hast.preorder pass cascade c = Some c' ->
                              originIn pass c c') cs ->
  forall m', In m' (Hast.allNodes (Hast.keep pass cascade cs)) ->
             exists m, In m (Hast.allNodes cs) /\ sameHead m m'
                       /\ pass m = false.
Proof.
  induction 1 as [| c cs Hc _ IH]; simpl; intros m' Hm'; [contradiction|].
  destruct (Hast.preorder pass cascade c) as [c' |] eqn:E.
  - simpl in Hm'. apply in_app_or in Hm'. destruct Hm' as [Hm' | Hm'].
    + destruct (Hc c' eq_refl m' Hm') as (m & Hm & Hs & Hp).
      exists m. split; [apply in_or_app; left; exact Hm | auto].
    + destruct (IH m' Hm') as (m & Hm & Hs & Hp).
      exists m. split; [apply in_or_app; right; exact Hm | auto].
  - destruct (IH m' Hm') as (m & Hm & Hs & Hp).
    exists m. split; [apply in_or_app; right; exact Hm | auto].
Qed.

Lemma preorder_origin (n : Hast.Node) :
  forall n', Hast.preorder pass cascade n = Some n' -> originIn pass n n'.
Proof.
  induction n as [tag props cs IH | v | v |] using Node_induction;
    intros n' E.
  - rewrite preorder_element in E.
    destruct (pass (Hast.Element tag props cs)) eqn:Hp; [discriminate|].
    assert (Hself : forall cs' m',
               In m' (Hast.nodes (Hast.Element tag props cs')) ->
               (forall x, In x (Hast.allNodes cs') ->
                  exists m, In m (Hast.allNodes cs) /\ sameHead m x
                            /\ pass m = false) ->
               exists m, In m (Hast.nodes (Hast.Element tag props cs))
                         /\ sameHead m m' /\ pass m = false).
    { intros cs' m' Hm' Hcs'. rewrite nodes_element in Hm'.
      destruct Hm' as [<- | Hm'].
      - exists (Hast.Element tag props cs). rewrite nodes_element.
        split; [left; reflexivity|]. split; [simpl; auto | exact Hp].
      - destruct (Hcs' m' Hm') as (m & Hm & Hs & Hq).
        exists m. rewrite nodes_element. split; [right; exact Hm | auto]. }
    destruct cs as [| c cs].
    + injection E as <-. intros m' Hm'. apply (Hself [] m' Hm').
      intros x [].
    + destruct (Hast.keep pass cascade (c :: cs)) as [| k ks] eqn:K.
      * destruct cascade; [discriminate|]. injection E as <-.
        intros m' Hm'. apply (Hself [] m' Hm'). intros x [].
      * injection E as <-. intros m' Hm'. apply (Hself (k :: ks) m' Hm').
        rewrite <- K. apply keep_origin. exact IH.
  - simpl in E. destruct (pass (Hast.Text v)) eqn:Hp; [discriminate|].
    injection E as <-. intros m' [<- | []].
    exists (Hast.Text v). simpl. auto.
  - simpl in E. destruct (pass (Hast.Comment v)) eqn:Hp; [discriminate|].
    injection E as <-. intros m' [<- | []].
    exists (Hast.Comment v). simpl. auto.
  - simpl in E. destruct (pass Hast.Doctype) eqn:Hp; [discriminate|].
    injection E as <-. intros m' [<- | []].
    exists Hast.Doctype. simpl. auto.
Qed.

Lemma keep_nodes (cs : list Hast.Node) :
  forall m', In m' (Hast.allNodes (Hast.keep pass cascade cs)) ->
             exists m, In m (Hast.allNodes cs) /\ sameHead m m'
                       /\ pass m = false.
Proof.
  apply keep_origin. apply Forall_forall. intros c _.
  apply preorder_origin.
Qed.

(** What is left of the prose was prose before. *)
Lemma keep_prose_from (cs : list Hast.Node) :
  Forall (fun c => forall c' v,
            Hast.preorder pass cascade c = Some c' ->
            In v (Hast.proseTexts c') -> In v (Hast.proseTexts c)) cs ->
  forall v, In v (Hast.allProseTexts (Hast.keep pass cascade cs)) ->
            In v (Hast.allProseTexts cs).
Proof.
  induction 1 as [| c cs Hc _ IH]; simpl; intros v Hv; [contradiction|].
  destruct (Hast.preorder pass cascade c) as [c' |] eqn:E.
  - simpl in Hv. apply in_app_or in Hv. apply in_or_app.
    destruct Hv as [Hv | Hv]; [left; eapply Hc; eauto | right; auto].
  - apply in_or_app. right. auto.
Qed.

Lemma preorder_prose (n : Hast.Node) :
  forall n' v, Hast.preorder pass cascade n = Some n' ->
               In v (Hast.proseTexts n') -> In v (Hast.proseTexts n).
Proof.
  induction n as [tag props cs IH | v0 | v0 |] using Node_induction;
    intros n' v E Hv.
  - rewrite preorder_element in E.
    destruct (pass (Hast.Element tag props cs)); [discriminate|].
    destruct cs as [| c cs]; [injection E as <-; exact Hv|].
    destruct (Hast.keep pass cascade (c :: cs)) as [| k ks] eqn:K.
    + destruct cascade; [discriminate|]. injection E as <-.
      rewrite proseTexts_element in Hv.
      destruct (tag =? "table"); destruct Hv.
    + injection E as <-. rewrite proseTexts_element in *.
      destruct (tag =? "table"); [exact Hv|].
      rewrite <- K in Hv. apply keep_prose_from; assumption.
  - simpl in E. destruct (pass _); [discriminate|].
    injection E as <-. exact Hv.
  - simpl in E. destruct (pass _); [discriminate|].
    injection E as <-. exact Hv.
  - simpl in E. destruct (pass _); [discriminate|].
    injection E as <-. exact Hv.
Qed.

Lemma keep_prose (cs : list Hast.Node) :
  forall v, In v (Hast.allProseTexts (Hast.keep pass cascade cs)) ->
            In v (Hast.allProseTexts cs).
Proof.
  apply keep_prose_from. apply Forall_forall. intros c _ c' v.
  apply preorder_prose.
Qed.

End Removal.

(** Where no node is a table, every text node is prose. *)
Lemma tableFree_texts (n : Hast.Node) :
  (forall m, In m (Hast.nodes n) -> Hast.hasTagName "table" m = false) ->
  Hast.textValues (Hast.nodes n) = Hast.proseTexts n.
Proof.
  induction n as [tag props cs IH | v | v |] using Node_induction;
    intros Hfree; try reflexivity.
  rewrite nodes_element, proseTexts_element.
  assert (Htag : (tag =? "table") = false).
  { apply (Hfree (Hast.Element tag props cs)). rewrite nodes_element.
    left. reflexivity. }
  rewrite Htag. simpl.
  assert (Hcs : forall m, In m (Hast.allNodes cs) ->
                          Hast.hasTagName "table" m = false).
  { intros m Hm. apply Hfree. rewrite nodes_element. right. exact Hm. }
  clear Hfree Htag. induction IH as [| c cs Hc _ IHcs]; [reflexivity|].
  simpl in *. rewrite textValues_app. f_equal.
  - apply Hc. intros m Hm. apply Hcs. apply in_or_app. left. exact Hm.
  - apply IHcs. intros m Hm. apply Hcs. apply in_or_app. right. exact Hm.
Qed.

Lemma tableFree_all_texts (cs : list Hast.Node) :
  (forall m, In m (Hast.allNodes cs) -> Hast.hasTagName "table" m = false) ->
  Hast.textValues (Hast.allNodes cs) = Hast.allProseTexts cs.
Proof.
  induction cs as [| c cs IH]; intros Hfree; [reflexivity|].
  simpl in *. rewrite textValues_app. f_equal.
  - apply tableFree_texts. intros m Hm. apply Hfree.
    apply in_or_app. left. exact Hm.
  - apply IH. intros m Hm. apply Hfree. apply in_or_app. right. exact Hm.
Qed.

(** No comment and no table is left in the tree, at any depth. *)
Lemma removeCommentsAndTables_clean (tree : Hast.Root) (m : Hast.Node) :
  In m (Hast.allNodes (Hast.rootChildren (removeCommentsAndTables tree))) ->
  Hast.hasType "comment" m = false /\ Hast.hasTagName "table" m = false.
Proof.
  unfold removeCommentsAndTables, Hast.remove. simpl. intros Hm.
  apply keep_nodes in Hm. destruct Hm as (m1 & Hm1 & Hs1 & Ht).
  apply keep_nodes in Hm1. destruct Hm1 as (m0 & _ & Hs0 & Hc).
  split.
  - rewrite (sameHead_hasType _ _ _ Hs1), (sameHead_hasType _ _ _ Hs0).
    exact Hc.
  - rewrite (sameHead_hasTagName _ _ _ Hs1). exact Ht.
Qed.

(** C3. The converter hands to the markdown conversion a tree in which no
    comment node and no [<table>] element is left, at any depth; every text
    node of that tree is a text node of the parsed tree that lies outside
    the tables (and is no comment); and the output is computed from that
    tree alone. *)
Theorem pruning_is_complete (W : World) (html : string) (tree : Hast.Root) :
  rehypeParse W html = Ok tree ->
  (forall m,
     In m (Hast.allNodes
             (Hast.rootChildren (removeCommentsAndTables tree))) ->
     Hast.hasType "comment" m = false
     /\ Hast.hasTagName "table" m = false)
  /\ (forall v,
        In v (Hast.textValues
                (Hast.allNodes
                   (Hast.rootChildren (removeCommentsAndTables tree)))) ->
        In v (Hast.allProseTexts (Hast.rootChildren tree)))
  /\ htmlToMarkdown W html
     = andThen (rehype2remark W (removeCommentsAndTables tree))
               (remarkStringify W).
Proof.
  intros Hparse. split; [apply removeCommentsAndTables_clean|]. split.
  - intros v Hv. rewrite tableFree_all_texts in Hv.
    + unfold removeCommentsAndTables, Hast.remove in Hv. simpl in Hv.
      apply keep_prose in Hv. apply keep_prose in Hv. exact Hv.
    + intros m Hm. apply (removeCommentsAndTables_clean tree m Hm).
  - unfold htmlToMarkdown. rewrite Hparse. reflexivity.
Qed.

Lemma pruning_is_complete_witness :
  (forall m,
     In m (Hast.allNodes
             (Hast.rootChildren
                (removeCommentsAndTables Sample.pageTree))) ->
     Hast.hasType "comment" m = false
     /\ Hast.hasTagName "table" m = false)
  /\ (forall v,
        In v (Hast.textValues
                (Hast.allNodes
                   (Hast.rootChildren
                      (removeCommentsAndTables Sample.pageTree)))) ->
        In v (Hast.allProseTexts (Hast.rootChildren Sample.pageTree)))
  /\ htmlToMarkdown Sample.world Sample.page
     = andThen (rehype2remark Sample.world
                  (removeCommentsAndTables Sample.pageTree))
               (remarkStringify Sample.world).
Proof.
  apply (@pruning_is_complete Sample.world Sample.page Sample.pageTree).
  reflexivity.
Defined.

(** Scenario C: the paragraph stays, the table goes. *)
Example page_pruned :
  removeCommentsAndTables Sample.pageTree
  = {| Hast.rootChildren :=
         [Hast.Element "html" []
            [Hast.Element "head" [] [];
             Hast.Element "body" []
               [Hast.Element "p" [] [Hast.Text "Hello"]]]] |}
  /\ Hast.allProseTexts (Hast.rootChildren Sample.pageTree) = ["Hello"].
Proof. split; reflexivity. Qed.

(** A comment inside a table inside a paragraph: all of it goes, and the
    paragraph, left without children, goes with it. *)
Example nested_pruned :
  removeCommentsAndTables
    {| Hast.rootChildren :=
         [Hast.Comment "a";
          Hast.Element "div" []
            [Hast.Text "kept";
             Hast.Element "p" []
               [Hast.Element "table" []
                  [Hast.Comment "b"; Hast.Text "dropped"]]]] |}
  = {| Hast.rootChildren :=
         [Hast.Element "div" [] [Hast.Text "kept"]] |}.
Proof. reflexivity. Qed.

(** ** The subtitle track *)

Lemma zeroPad_two (n : nat) :
  n < 100 -> twoPlain (JS.zeroPad n 2) = true.
Proof.
  intros H.
  assert (A : forallb (fun k => twoPlain (JS.zeroPad k 2)) (seq 0 100)
              = true) by (vm_compute; reflexivity).
  rewrite forallb_forall in A. apply A. apply in_seq. lia.
Qed.

Lemma zeroPad_three (n : nat) :
  n < 1000 -> threePlain (JS.zeroPad n 3) = true.
Proof.
  intros H.
  assert (A : forallb (fun k => threePlain (JS.zeroPad k 3)) (seq 0 1000)
              = true) by (vm_compute; reflexivity).
  rewrite forallb_forall in A. apply A. apply in_seq. lia.
Qed.

Lemma replace_other (a : ascii) (s : string) :
  (a =? ".")%char = false ->
  JS.replace "." "," (String a s) = String a (JS.replace "." "," s).
Proof.
  intros H. cbn [JS.replace prefix].
  destruct (ascii_dec "." a) as [<- | _]; [discriminate H | reflexivity].
Qed.

Lemma replace_period (s : string) :
  JS.replace "." "," (String "." s) = String "," s.
Proof. simpl. destruct s; reflexivity. Qed.

(** Below twenty-four hours the clock reading of a time value is its
    elapsed time, and the period before the milliseconds is the only one. *)
Lemma clock_within_day (t : Z) :
  (0 <= t < JS.msPerDay)%Z ->
  exists reading,
    clock t = Ok reading /\ JS.replace "." "," reading = srtTime t.
Proof.
  unfold JS.msPerDay. intros Ht.
  assert (Hh : (0 <= t / 3600000 < 24)%Z).
  { split; [apply Z.div_pos; lia | apply Z.div_lt_upper_bound; lia]. }
  pose proof (Z.mod_pos_bound (t / 60000) 60 ltac:(lia)) as Hm.
  pose proof (Z.mod_pos_bound (t / 1000) 60 ltac:(lia)) as Hs.
  pose proof (Z.mod_pos_bound t 1000 ltac:(lia)) as Hms.
  unfold clock, JS.Date, JS.toISOString, srtTime.
  replace (Z.abs t <=? 8640000000000000)%Z with true
    by (symmetry; apply Z.leb_le; lia).
  unfold JS.Day, JS.msPerDay. rewrite (Z.div_small t 86400000) by lia.
  change (JS.civil 0) with (1970, 1, 1)%Z. cbv iota beta.
  change (JS.isoYear 1970) with "1970".
  change (JS.zeroPad (Z.to_nat 1) 2) with "01".
  unfold JS.HourFromTime, JS.MinFromTime, JS.SecFromTime, JS.msFromTime.
  rewrite (Z.mod_small (t / 3600000) 24) by lia.
  pose proof (zeroPad_two (Z.to_nat (t / 3600000)) ltac:(lia)) as Ph.
  pose proof (zeroPad_two (Z.to_nat ((t / 60000) mod 60)) ltac:(lia)) as Pm.
  pose proof (zeroPad_two (Z.to_nat ((t / 1000) mod 60)) ltac:(lia)) as Ps.
  pose proof (zeroPad_three (Z.to_nat (t mod 1000)) ltac:(lia)) as Pms.
  destruct (JS.zeroPad (Z.to_nat (t / 3600000)) 2)
    as [| h1 [| h2 [| ? ?]]]; try discriminate Ph.
  destruct (JS.zeroPad (Z.to_nat ((t / 60000) mod 60)) 2)
    as [| m1 [| m2 [| ? ?]]]; try discriminate Pm.
  destruct (JS.zeroPad (Z.to_nat ((t / 1000) mod 60)) 2)
    as [| s1 [| s2 [| ? ?]]]; try discriminate Ps.
  destruct (JS.zeroPad (Z.to_nat (t mod 1000)) 3)
    as [| f1 [| f2 [| f3 [| ? ?]]]]; try discriminate Pms.
  simpl in Ph, Pm, Ps, Pms.
  repeat match goal with
         | H : _ && _ = true |- _ => apply andb_true_iff in H; destruct H
         | H : negb _ = true |- _ => apply negb_true_iff in H
         end.
  unfold andThen, JS.substring.
  cbn [append Nat.min Nat.max Nat.sub String.substring].
  eexists. split; [reflexivity|].
  repeat (first [ rewrite replace_period
                | rewrite replace_other by (assumption || reflexivity) ]).
  reflexivity.
Qed.

Lemma cue_within_day (item : TranscriptResponse) (index : nat) :
  withinDay item -> cue item index = Ok (srtCue (S index) item).
Proof.
  intros [Hstart Hend]. unfold cue, srtCue.
  destruct (clock_within_day _ Hstart) as (start & -> & <-).
  destruct (clock_within_day _ Hend) as (end_ & -> & <-).
  simpl. rewrite Nat.add_1_r. reflexivity.
Qed.

(** Within twenty-four hours the loop appends the cues of the segments, in
    their order, numbered from where it stands. *)
Lemma forEach_within_day (transcript : list TranscriptResponse) :
  Forall withinDay transcript ->
  forall index srtContent,
    forEach transcript index srtContent
    = Ok (srtContent ++ srtFrom (S index) transcript).
Proof.
  induction 1 as [| item rest Hitem _ IH]; intros index srtContent; simpl.
  - rewrite append_empty_r. reflexivity.
  - rewrite (cue_within_day _ _ Hitem). simpl.
    rewrite IH, append_assoc. reflexivity.
Qed.

(** For a video whose captions all lie within twenty-four hours the
    extractor returns the subtitle track of the segments the provider
    gave. *)
Lemma getYouTubeSubtitles_within_day (W : World) (u : string)
      (parsed : JS.URL) (videoId : string)
      (transcript : list TranscriptResponse) :
  JS.parseURL (hierOk W) u = Ok parsed ->
  JS.get "v" (JS.searchParams parsed) = Some videoId ->
  videoId <> "" ->
  fetchTranscript W videoId = Ok transcript ->
  Forall withinDay transcript ->
  getYouTubeSubtitles W u
  = (Ok (subtitleTrack transcript), [FetchTranscript videoId]).
Proof.
  intros Hparse Hv Hne Hfetch Hday.
  rewrite (getYouTubeSubtitles_parsed _ _ _ Hparse), Hv. simpl.
  destruct (String.eqb_spec videoId ""); [contradiction|].
  rewrite Hfetch. simpl. rewrite (forEach_within_day _ Hday). reflexivity.
Qed.

(** Scenario E. *)
Example one_segment :
  forEach [{| text := "Hi"; duration := 1000; offset := 0 |}] 0 ""
  = Ok (String "1" (String "010"
         ("00:00:00,000 --> 00:00:01,000" ++ String "010"
           ("Hi" ++ String "010" (String "010" ""))))).
Proof. reflexivity. Qed.

(** C4, where the code departs from it.  A segment that starts at the
    twenty-four hour mark is written with the clock reading of the next
    day, [00:00:00,000 --> 00:00:01,000], where the format asks for the
    elapsed time, [24:00:00,000 --> 24:00:01,000]. *)
Theorem clock_wraps_after_a_day :
  forEach [Sample.late] 0 ""
  = Ok (String "1" (String "010"
         ("00:00:00,000 --> 00:00:01,000" ++ String "010"
           ("Hi" ++ String "010" (String "010" "")))))
  /\ subtitleTrack [Sample.late]
     = String "1" (String "010"
         ("24:00:00,000 --> 24:00:01,000" ++ String "010"
           ("Hi" ++ String "010" (String "010" ""))))
  /\ forEach [Sample.late] 0 "" <> Ok (subtitleTrack [Sample.late]).
Proof.
  split; [reflexivity|]. split; [reflexivity|]. vm_compute. discriminate.
Qed.

(* ================================================================== *)
(** * Further properties of the pipeline *)

(** ** The classifier, exactly *)

Lemma isYouTubeLink_matches (u : string) :
  isYouTubeLink u = true
  <-> exists pre x rest,
        u = pre ++ String "/" (String x rest)
        /\ JS.matches hostPart pre = true
        /\ JS.lineTerminator x = false.
Proof.
  unfold isYouTubeLink. rewrite test_Lang. split.
  - intros (p & q & -> & H). unfold pattern in H.
    apply Lang_seq_inv in H. destruct H as (a & w1 & -> & Ha & H).
    apply Lang_seq_inv in H. destruct H as (b & w2 & -> & Hb & H).
    apply Lang_seq_inv in H. destruct H as (c & w3 & -> & Hc & H).
    apply Lang_seq_inv in H. destruct H as (d & w4 & -> & Hd & H).
    apply Lang_seq_inv in H. destruct H as (e & w5 & -> & He & H).
    apply Lang_seq_inv in H. destruct H as (sl & w6 & -> & Hsl & H).
    apply Lang_chr_inv in Hsl. subst sl.
    unfold JS.Plus in H.
    apply Lang_seq_inv in H. destruct H as (d1 & t & -> & Hd1 & _).
    inversion Hd1 as [| | x Hx | | | | |]; subst.
    exists (a ++ b ++ c ++ d ++ e), x, (t ++ q). split; [|split].
    + rewrite !append_assoc. reflexivity.
    + apply matches_Lang. unfold hostPart.
      repeat (constructor; try assumption).
    + exact Hx.
  - intros (pre & x & rest & -> & Hpre & Hx).
    apply matches_Lang in Hpre. unfold hostPart in Hpre.
    apply Lang_seq_inv in Hpre. destruct Hpre as (a & w1 & -> & Ha & H).
    apply Lang_seq_inv in H. destruct H as (b & w2 & -> & Hb & H).
    apply Lang_seq_inv in H. destruct H as (c & w3 & -> & Hc & H).
    apply Lang_seq_inv in H. destruct H as (d & e & -> & Hd & He).
    exists (a ++ b ++ c ++ d ++ e ++ String "/" (String x "")), rest.
    split.
    + rewrite !append_assoc. reflexivity.
    + unfold pattern. repeat (apply JS.LSeq; try assumption).
      change (String "/" (String x ""))
        with (String "/" "" ++ (String x "" ++ "")).
      apply JS.LSeq; [apply JS.LChr|]. unfold JS.Plus.
      apply JS.LSeq; [apply JS.LDot; exact Hx | apply JS.LStarNil].
Qed.

(** X1. [isYouTubeLink] accepts exactly the strings that start with a word
    of the host part, followed by a slash and by one character that is not
    a line terminator; what comes after is free. *)
Theorem isYouTubeLink_iff (u : string) :
  isYouTubeLink u = true
  <-> exists pre x rest,
        u = pre ++ String "/" (String x rest)
        /\ JS.matches hostPart pre = true
        /\ JS.lineTerminator x = false.
Proof. apply isYouTubeLink_matches. Qed.

(** X2. The pattern has no end anchor: whatever is appended to a YouTube
    link, the result is a YouTube link. *)
Theorem isYouTubeLink_append (u rest : string) :
  isYouTubeLink u = true -> isYouTubeLink (u ++ rest) = true.
Proof.
  unfold isYouTubeLink. rewrite !test_Lang.
  intros (p & q & -> & H). exists p, (q ++ rest).
  split; [apply append_assoc | exact H].
Qed.

Lemma isYouTubeLink_append_witness :
  isYouTubeLink ("http://youtu.be/abc" ++ " and more") = true.
Proof.
  apply (isYouTubeLink_append "http://youtu.be/abc" " and more").
  reflexivity.
Defined.

(** ** Short links *)

Lemma noneOf_weaken (bad bad' : ascii -> bool) (s : string) :
  (forall c, bad' c = true -> bad c = true) ->
  noneOf bad s = true -> noneOf bad' s = true.
Proof.
  intros Hb. induction s as [| c s IH]; simpl; [reflexivity|].
  intros H. apply andb_true_iff in H. destruct H as [Hc Hs].
  rewrite (IH Hs), andb_true_r. apply negb_true_iff in Hc.
  destruct (bad' c) eqn:E; [|reflexivity].
  apply Hb in E. congruence.
Qed.

Lemma noneOf_append (bad : ascii -> bool) (a b : string) :
  noneOf bad (a ++ b) = noneOf bad a && noneOf bad b.
Proof.
  induction a as [| c a IH]; simpl; [reflexivity|].
  rewrite IH, andb_assoc. reflexivity.
Qed.

Lemma noneOf_revAppend (bad : ascii -> bool) (s : string) :
  forall acc, noneOf bad (JS.revAppend s acc)
              = noneOf bad s && noneOf bad acc.
Proof.
  induction s as [| c s IH]; intros acc; simpl; [reflexivity|].
  rewrite IH. simpl.
  destruct (bad c), (noneOf bad s), (noneOf bad acc); reflexivity.
Qed.

Lemma revAppend_revAppend (s : string) :
  forall a b, JS.revAppend (JS.revAppend s a) b = JS.revAppend a (s ++ b).
Proof.
  induction s as [| c s IH]; intros a b; simpl; [reflexivity|].
  rewrite IH. reflexivity.
Qed.

Lemma trimStart_unchanged (s : string) :
  noneOf JS.c0OrSpace s = true -> JS.trimStart s = s.
Proof.
  destruct s as [| c s]; simpl; [reflexivity|].
  intros H. apply andb_true_iff in H. destruct H as [Hc _].
  apply negb_true_iff in Hc. rewrite Hc. reflexivity.
Qed.

Lemma trimEnd_unchanged (s : string) :
  noneOf JS.c0OrSpace s = true -> JS.trimEnd s = s.
Proof.
  intros H. unfold JS.trimEnd, JS.reverse.
  rewrite trimStart_unchanged.
  - rewrite revAppend_revAppend. simpl. apply append_empty_r.
  - rewrite noneOf_revAppend, H. reflexivity.
Qed.

Lemma removeTabNewline_unchanged (s : string) :
  noneOf JS.c0OrSpace s = true -> JS.removeTabNewline s = s.
Proof.
  induction s as [| c s IH]; simpl; [reflexivity|].
  intros H. apply andb_true_iff in H. destruct H as [Hc Hs].
  apply negb_true_iff in Hc.
  assert (T : JS.tabOrNewline c = false).
  { unfold JS.tabOrNewline.
    destruct (Ascii.eqb_spec c "009") as [-> |]; [discriminate Hc|].
    destruct (Ascii.eqb_spec c "010") as [-> |]; [discriminate Hc|].
    destruct (Ascii.eqb_spec c "013") as [-> |]; [discriminate Hc|].
    reflexivity. }
  rewrite T, (IH Hs). reflexivity.
Qed.

Lemma cut_absent (sep : ascii) (s : string) :
  noneOf (fun c => (c =? sep)%char) s = true -> JS.cut sep s = (s, None).
Proof.
  induction s as [| c s IH]; simpl; [reflexivity|].
  intros H. apply andb_true_iff in H. destruct H as [Hc Hs].
  apply negb_true_iff in Hc. rewrite Hc, (IH Hs). reflexivity.
Qed.

Lemma space_free_is_no_terminator (c : ascii) :
  JS.c0OrSpace c = false -> JS.lineTerminator c = false.
Proof.
  intros H. unfold JS.lineTerminator.
  destruct (Ascii.eqb_spec c "010") as [-> |]; [discriminate H|].
  destruct (Ascii.eqb_spec c "013") as [-> |]; [discriminate H|].
  reflexivity.
Qed.

(** A short link with a plain path parses, and has no query. *)
Lemma short_link_parsed (W : World) (p : string) :
  plainPath p = true ->
  hierOk W "https" ("//youtu.be/" ++ p) = true ->
  JS.parseURL (hierOk W) ("https://youtu.be/" ++ p)
  = Ok {| JS.scheme := "https"; JS.hier := "//youtu.be/" ++ p;
          JS.query := None; JS.fragment := None |}.
Proof.
  intros Hp Hh. unfold plainPath in Hp.
  assert (Hs : noneOf JS.c0OrSpace ("https://youtu.be/" ++ p) = true).
  { rewrite noneOf_append. simpl.
    apply (noneOf_weaken _ JS.c0OrSpace) in Hp; [exact Hp|].
    intros c ->. reflexivity. }
  unfold JS.parseURL.
  rewrite (trimStart_unchanged _ Hs), (trimEnd_unchanged _ Hs),
          (removeTabNewline_unchanged _ Hs).
  change (JS.schemeStartState ("https://youtu.be/" ++ p))
    with (Some ("https", "//youtu.be/" ++ p)).
  cbv beta iota.
  rewrite (cut_absent "#").
  2:{ rewrite noneOf_append. simpl.
      apply (noneOf_weaken _ (fun c => (c =? "#")%char)) in Hp; [exact Hp|].
      intros c ->. apply orb_true_r. }
  rewrite (cut_absent "?").
  2:{ rewrite noneOf_append. simpl.
      apply (noneOf_weaken _ (fun c => (c =? "?")%char)) in Hp; [exact Hp|].
      intros c ->. rewrite orb_true_r. reflexivity. }
  rewrite Hh. reflexivity.
Qed.

(** X3. A short link [https://youtu.be/<path>], with a path that is not
    empty and has no query, no fragment and no space, is classified as a
    YouTube link; and since the video id is only looked for in the [v]
    parameter, [fetchContentFromURL] fails on it with the invalid-input
    error after a successful first request, without asking the captions
    provider. *)
Theorem short_link_is_invalid_input (W : World) (p : string)
        (response : Response) :
  p <> "" ->
  plainPath p = true ->
  hierOk W "https" ("//youtu.be/" ++ p) = true ->
  fetch W ("https://youtu.be/" ++ p) = Ok response ->
  ok response = true ->
  isYouTubeLink ("https://youtu.be/" ++ p) = true
  /\ fetchContentFromURL W ("https://youtu.be/" ++ p)
     = (Err InvalidInput, [GET ("https://youtu.be/" ++ p)]).
Proof.
  intros Hne Hp Hh Hfetch Hok.
  assert (Hyt : isYouTubeLink ("https://youtu.be/" ++ p) = true).
  { destruct p as [| c p]; [contradiction|].
    apply (proj2 (isYouTubeLink_matches _)).
    exists "https://youtu.be", c, p. split; [reflexivity|].
    split; [reflexivity|]. apply space_free_is_no_terminator.
    unfold plainPath in Hp. simpl in Hp.
    apply andb_true_iff in Hp. destruct Hp as [Hc _].
    apply negb_true_iff in Hc.
    destruct (JS.c0OrSpace c); [discriminate Hc | reflexivity]. }
  split; [exact Hyt|].
  rewrite (fetchContentFromURL_answered _ _ _ Hfetch).
  unfold request, bind, viaYouTube. rewrite Hok, Hyt. cbn [negb].
  rewrite (getYouTubeSubtitles_parsed _ _ _ (short_link_parsed _ _ Hp Hh)).
  reflexivity.
Qed.

Lemma short_link_is_invalid_input_witness :
  isYouTubeLink ("https://youtu.be/" ++ "dQw4w9WgXcQ") = true
  /\ fetchContentFromURL (More.always More.found (Ok []))
                         ("https://youtu.be/" ++ "dQw4w9WgXcQ")
     = (Err InvalidInput, [GET ("https://youtu.be/" ++ "dQw4w9WgXcQ")]).
Proof.
  apply (@short_link_is_invalid_input (More.always More.found (Ok []))
           "dQw4w9WgXcQ" More.found);
    try reflexivity.
  discriminate.
Defined.

(** ** Transcripts *)

(** X4. For a YouTube link whose [v] parameter is [videoId], answered with
    success, and captions that all lie within twenty-four hours,
    [fetchContentFromURL] asks the provider once, for that id, and returns
    the subtitle track of the segments as plain text, with its length as
    size. *)
Theorem transcript_is_subtitle_track (W : World) (u : string)
        (response : Response) (parsed : JS.URL) (videoId : string)
        (transcript : list TranscriptResponse) :
  fetch W u = Ok response ->
  ok response = true ->
  isYouTubeLink u = true ->
  JS.parseURL (hierOk W) u = Ok parsed ->
  JS.get "v" (JS.searchParams parsed) = Some videoId ->
  videoId <> "" ->
  fetchTranscript W videoId = Ok transcript ->
  Forall withinDay transcript ->
  fetchContentFromURL W u
  = (Ok {| url := u; content := subtitleTrack transcript;
           size := length (subtitleTrack transcript);
           type := "text/plain" |},
     [GET u; FetchTranscript videoId]).
Proof.
  intros Hfetch Hok Hyt Hparse Hv Hne Hcaptions Hday.
  rewrite (fetchContentFromURL_answered _ _ _ Hfetch).
  unfold request, bind, viaYouTube. rewrite Hok, Hyt. cbn [negb].
  rewrite (getYouTubeSubtitles_within_day _ _ _ _ _ Hparse Hv Hne
             Hcaptions Hday).
  reflexivity.
Qed.

Lemma transcript_is_subtitle_track_witness :
  fetchContentFromURL Sample.world "https://www.youtube.com/watch?v=abc"
  = (Ok {| url := "https://www.youtube.com/watch?v=abc";
           content := subtitleTrack
                        [{| text := "Hi"; duration := 1000; offset := 0 |}];
           size := length (subtitleTrack
                        [{| text := "Hi"; duration := 1000; offset := 0 |}]);
           type := "text/plain" |},
     [GET "https://www.youtube.com/watch?v=abc"; FetchTranscript "abc"]).
Proof.
  apply (@transcript_is_subtitle_track Sample.world
           "https://www.youtube.com/watch?v=abc"
           (Sample.response 200 (Some "text/html") "<html></html>")
           {| JS.scheme := "https"; JS.hier := "//www.youtube.com/watch";
              JS.query := Some "v=abc"; JS.fragment := None |}
           "abc" [{| text := "Hi"; duration := 1000; offset := 0 |}]);
    try reflexivity.
  - discriminate.
  - constructor; [|constructor]. unfold withinDay, JS.msPerDay. simpl. lia.
Defined.

Lemma clock_valid (t : Z) :
  validTime t = true -> exists reading, clock t = Ok reading.
Proof.
  unfold validTime, clock, JS.Date, JS.toISOString. intros ->.
  destruct (JS.civil (JS.Day t)) as [[y m] d]. simpl. eauto.
Qed.

Lemma clock_invalid (t : Z) :
  validTime t = false -> clock t = Err (RangeError "Invalid time value").
Proof.
  unfold validTime, clock, JS.Date, JS.toISOString. intros ->. reflexivity.
Qed.

Lemma cue_outcome (item : TranscriptResponse) (index : nat) :
  match cue item index with
  | Ok _ => validItem item = true
  | Err e => e = RangeError "Invalid time value" /\ validItem item = false
  end.
Proof.
  unfold cue, validItem.
  destruct (validTime (offset item)) eqn:Hs.
  - destruct (clock_valid _ Hs) as (start & ->). simpl.
    destruct (validTime (offset item + duration item)) eqn:He.
    + destruct (clock_valid _ He) as (end_ & ->). reflexivity.
    + rewrite (clock_invalid _ He). simpl. auto.
  - rewrite (clock_invalid _ Hs). simpl. auto.
Qed.

(** X5. The serialization of the segments fails exactly when some segment
    starts or ends at a time that [new Date] does not accept, and then with
    the range error of [toISOString]: nothing of the track is returned. *)
Theorem forEach_outcome (transcript : list TranscriptResponse) :
  forall (index : nat) (srtContent : string),
    match forEach transcript index srtContent with
    | Ok _ => forallb validItem transcript = true
    | Err e => e = RangeError "Invalid time value"
               /\ forallb validItem transcript = false
    end.
Proof.
  induction transcript as [| item rest IH]; intros index srtContent; simpl.
  - reflexivity.
  - pose proof (cue_outcome item index) as Hc.
    destruct (cue item index) as [c | e]; simpl.
    + rewrite Hc. simpl. apply IH.
    + destruct Hc as [-> ->]. auto.
Qed.

(** X6. Serializing a transcript in two parts is serializing the first
    part and going on with the second from where the first stopped, in cue
    number and in text. *)
Theorem forEach_append (first second : list TranscriptResponse) :
  forall (index : nat) (srtContent : string),
    forEach (first ++ second) index srtContent
    = andThen (forEach first index srtContent)
              (forEach second (index + List.length first)).
Proof.
  induction first as [| item rest IH]; intros index srtContent; simpl.
  - rewrite Nat.add_0_r. reflexivity.
  - destruct (cue item index) as [c | e]; simpl; [|reflexivity].
    rewrite IH. replace (S index + List.length rest)
      with (index + S (List.length rest)) by lia.
    reflexivity.
Qed.

(** X7. When the captions provider fails, the failure is the failure of
    [fetchContentFromURL], unchanged, after the first request and the one
    request to the provider; no record is returned. *)
Theorem provider_failure_propagates (W : World) (u : string)
        (response : Response) (parsed : JS.URL) (videoId : string)
        (e : Error) :
  fetch W u = Ok response ->
  ok response = true ->
  isYouTubeLink u = true ->
  JS.parseURL (hierOk W) u = Ok parsed ->
  JS.get "v" (JS.searchParams parsed) = Some videoId ->
  videoId <> "" ->
  fetchTranscript W videoId = Err e ->
  fetchContentFromURL W u = (Err e, [GET u; FetchTranscript videoId]).
Proof.
  intros Hfetch Hok Hyt Hparse Hv Hne Hcaptions.
  rewrite (fetchContentFromURL_answered _ _ _ Hfetch).
  unfold request, bind, viaYouTube. rewrite Hok, Hyt. cbn [negb].
  rewrite (getYouTubeSubtitles_parsed _ _ _ Hparse), Hv. simpl.
  destruct (String.eqb_spec videoId ""); [contradiction|].
  rewrite Hcaptions. reflexivity.
Qed.

Lemma provider_failure_propagates_witness :
  fetchContentFromURL (More.always More.found (Err More.unavailable))
                      "https://www.youtube.com/watch?v=abc"
  = (Err More.unavailable,
     [GET "https://www.youtube.com/watch?v=abc"; FetchTranscript "abc"]).
Proof.
  apply (@provider_failure_propagates
           (More.always More.found (Err More.unavailable))
           "https://www.youtube.com/watch?v=abc" More.found
           {| JS.scheme := "https"; JS.hier := "//www.youtube.com/watch";
              JS.query := Some "v=abc"; JS.fragment := None |}
           "abc" More.unavailable);
    try reflexivity.
  discriminate.
Defined.

(** ** Pruning, exactly *)

Section Exact.

Variable pass : Hast.Node -> bool.
Variable cascade : bool.

(** What passes the test carries no prose. *)
Hypothesis pass_no_prose :
  forall n, pass n = true -> Hast.proseTexts n = [].

Lemma keep_prose_exact_from (cs : list Hast.Node) :
  Forall (fun c => match Hast.preorder pass cascade c with
                   | Some c' => Hast.proseTexts c' = Hast.proseTexts c
                   | None => Hast.proseTexts c = []
                   end) cs ->
  Hast.allProseTexts (Hast.keep pass cascade cs) = Hast.allProseTexts cs.
Proof.
  induction 1 as [| c cs Hc _ IH]; simpl; [reflexivity|].
  destruct (Hast.preorder pass cascade c) as [c' |]; simpl.
  - rewrite Hc, IH. reflexivity.
  - rewrite Hc, IH. reflexivity.
Qed.

Lemma preorder_prose_exact (n : Hast.Node) :
  match Hast.preorder pass cascade n with
  | Some n' => Hast.proseTexts n' = Hast.proseTexts n
  | None => Hast.proseTexts n = []
  end.
Proof.
  induction n as [tag props cs IH | v | v |] using Node_induction.
  - rewrite preorder_element.
    destruct (pass (Hast.Element tag props cs)) eqn:Hp;
      [apply pass_no_prose; exact Hp|].
    destruct cs as [| c cs]; [reflexivity|].
    pose proof (keep_prose_exact_from _ IH) as K.
    rewrite !proseTexts_element.
    destruct (Hast.keep pass cascade (c :: cs)) as [| k ks].
    + destruct cascade; rewrite ?proseTexts_element;
        destruct (tag =? "table"); auto.
    + rewrite proseTexts_element. destruct (tag =? "table"); auto.
  - simpl. destruct (pass (Hast.Text v)) eqn:Hp; [|reflexivity].
    exact (pass_no_prose _ Hp).
  - simpl. destruct (pass (Hast.Comment v)); reflexivity.
  - simpl. destruct (pass Hast.Doctype); reflexivity.
Qed.

Lemma keep_prose_exact (cs : list Hast.Node) :
  Hast.allProseTexts (Hast.keep pass cascade cs) = Hast.allProseTexts cs.
Proof.
  apply keep_prose_exact_from. apply Forall_forall. intros c _.
  apply preorder_prose_exact.
Qed.

End Exact.

Lemma comment_no_prose (n : Hast.Node) :
  Hast.hasType "comment" n = true -> Hast.proseTexts n = [].
Proof. destruct n; intros H; try discriminate H; reflexivity. Qed.

Lemma table_no_prose (n : Hast.Node) :
  Hast.hasTagName "table" n = true -> Hast.proseTexts n = [].
Proof.
  destruct n as [tag props cs | v | v |]; intros H;
    try discriminate H.
  unfold Hast.hasTagName in H. simpl in H.
  rewrite proseTexts_element, H. reflexivity.
Qed.

(** X8. Pruning loses no prose and keeps its order: the text nodes of the
    pruned tree are, one for one and in the same order, the text nodes of
    the parsed tree that lie outside the tables. *)
Theorem pruning_keeps_the_prose (tree : Hast.Root) :
  Hast.textValues
    (Hast.allNodes (Hast.rootChildren (removeCommentsAndTables tree)))
  = Hast.allProseTexts (Hast.rootChildren tree).
Proof.
  rewrite tableFree_all_texts.
  - unfold removeCommentsAndTables, Hast.remove. simpl.
    rewrite (keep_prose_exact _ true table_no_prose).
    apply (keep_prose_exact _ true comment_no_prose).
  - intros m Hm. apply (removeCommentsAndTables_clean tree m Hm).
Qed.

Section Unchanged.

Variable pass : Hast.Node -> bool.
Variable cascade : bool.

Lemma keep_unchanged_from (cs : list Hast.Node) :
  Forall (fun c => (forall m, In m (Hast.nodes c) -> pass m = false) ->
                   Hast.preorder pass cascade c = Some c) cs ->
  (forall m, In m (Hast.allNodes cs) -> pass m = false) ->
  Hast.keep pass cascade cs = cs.
Proof.
  induction 1 as [| c cs Hc _ IH]; simpl; intros Hno; [reflexivity|].
  rewrite Hc, IH; [reflexivity | |];
    intros m Hm; apply Hno; apply in_or_app; auto.
Qed.

Lemma preorder_unchanged (n : Hast.Node) :
  (forall m, In m (Hast.nodes n) -> pass m = false) ->
  Hast.preorder pass cascade n = Some n.
Proof.
  induction n as [tag props cs IH | v | v |] using Node_induction;
    intros Hno.
  - rewrite preorder_element.
    rewrite (Hno (Hast.Element tag props cs))
      by (rewrite nodes_element; left; reflexivity).
    destruct cs as [| c cs]; [reflexivity|].
    rewrite (keep_unchanged_from _ IH); [reflexivity|].
    intros m Hm. apply Hno. rewrite nodes_element. right. exact Hm.
  - simpl. rewrite (Hno (Hast.Text v)) by (left; reflexivity). reflexivity.
  - simpl. rewrite (Hno (Hast.Comment v)) by (left; reflexivity).
    reflexivity.
  - simpl. rewrite (Hno Hast.Doctype) by (left; reflexivity). reflexivity.
Qed.

Lemma keep_unchanged (cs : list Hast.Node) :
  (forall m, In m (Hast.allNodes cs) -> pass m = false) ->
  Hast.keep pass cascade cs = cs.
Proof.
  apply keep_unchanged_from. apply Forall_forall. intros c _.
  apply preorder_unchanged.
Qed.

End Unchanged.

Lemma clean_is_unchanged (tree : Hast.Root) :
  (forall m, In m (Hast.allNodes (Hast.rootChildren tree)) ->
             Hast.hasType "comment" m = false
             /\ Hast.hasTagName "table" m = false) ->
  removeCommentsAndTables tree = tree.
Proof.
  intros Hclean. destruct tree as [cs]. simpl in Hclean.
  unfold removeCommentsAndTables, Hast.remove. simpl.
  rewrite (keep_unchanged (Hast.hasType "comment"));
    [| intros m Hm; apply Hclean; exact Hm].
  rewrite (keep_unchanged (Hast.hasTagName "table"));
    [reflexivity | intros m Hm; apply Hclean; exact Hm].
Qed.

(** X9. A tree with no comment and no table, at any depth, goes through the
    pruning unchanged: nothing else is ever removed, not even an element
    that has no children. *)
Theorem pruning_spares_clean_trees (tree : Hast.Root) :
  (forall m, In m (Hast.allNodes (Hast.rootChildren tree)) ->
             Hast.hasType "comment" m = false
             /\ Hast.hasTagName "table" m = false) ->
  removeCommentsAndTables tree = tree.
Proof. apply clean_is_unchanged. Qed.

Lemma pruning_spares_clean_trees_witness :
  removeCommentsAndTables
    {| Hast.rootChildren :=
         [Hast.Doctype;
          Hast.Element "html" []
            [Hast.Element "head" [] [];
             Hast.Element "body" [] [Hast.Text "Hello"]]] |}
  = {| Hast.rootChildren :=
         [Hast.Doctype;
          Hast.Element "html" []
            [Hast.Element "head" [] [];
             Hast.Element "body" [] [Hast.Text "Hello"]]] |}.
Proof.
  apply (pruning_spares_clean_trees
           {| Hast.rootChildren :=
                [Hast.Doctype;
                 Hast.Element "html" []
                   [Hast.Element "head" [] [];
                    Hast.Element "body" [] [Hast.Text "Hello"]]] |}).
  simpl. intros m Hm.
  repeat (destruct Hm as [<- | Hm]; [split; reflexivity|]).
  destruct Hm.
Defined.

(** X10. Pruning a pruned tree changes nothing. *)
Theorem pruning_is_idempotent (tree : Hast.Root) :
  removeCommentsAndTables (removeCommentsAndTables tree)
  = removeCommentsAndTables tree.
Proof.
  apply clean_is_unchanged. intros m Hm.
  apply (removeCommentsAndTables_clean tree m Hm).
Qed.

(* ================================================================== *)
(** * Properties of the chat component *)

(** ** The input box *)

(** X11. The input box has between two and twenty rows, at least three
    away from a mobile screen, and within those bounds as many as were
    measured. *)
Theorem inputRows_bounds (isMobileScreen : bool) (measured : option Z) :
  (2 <= Chat.inputRows isMobileScreen measured <= 20)%Z
  /\ (isMobileScreen = false ->
      (3 <= Chat.inputRows isMobileScreen measured)%Z)
  /\ (forall rows, measured = Some rows -> (3 <= rows <= 20)%Z ->
                   Chat.inputRows isMobileScreen measured = rows).
Proof.
  unfold Chat.inputRows.
  destruct isMobileScreen, measured as [r |]; simpl;
    repeat split; intros; try discriminate;
    try match goal with H : Some _ = Some _ |- _ => injection H as -> end;
    lia.
Qed.

Lemma inputRows_bounds_witness :
  (2 <= Chat.inputRows false (Some 40%Z) <= 20)%Z
  /\ (false = false -> (3 <= Chat.inputRows false (Some 40%Z))%Z)
  /\ (forall rows, Some 40%Z = Some rows -> (3 <= rows <= 20)%Z ->
                   Chat.inputRows false (Some 40%Z) = rows).
Proof. apply (inputRows_bounds false (Some 40%Z)). Defined.

(** ** Stale messages *)

Lemma settle_isStale (D : Chat.Deps) (stopTiming : Z)
      (m : Chat.ChatMessage) :
  Chat.isStale stopTiming (Chat.settle D stopTiming m)
  = Chat.isStale stopTiming m.
Proof.
  unfold Chat.settle. destruct (Chat.isStale stopTiming m) eqn:E;
    [|exact E].
  unfold Chat.isStale in *.
  destruct (Chat.streaming m); simpl;
    destruct (length (Chat.content m) =? 0)%nat; simpl; auto.
Qed.

Lemma settle_settled (D : Chat.Deps) (stopTiming : Z)
      (m : Chat.ChatMessage) :
  Chat.isStale stopTiming m = true ->
  Chat.streaming (Chat.settle D stopTiming m) = false
  /\ (Chat.emptyResponse D <> "" ->
      Chat.content (Chat.settle D stopTiming m) <> "").
Proof.
  intros E. unfold Chat.settle. rewrite E.
  destruct (Chat.streaming m) eqn:S; simpl;
    destruct (length (Chat.content m) =? 0)%nat eqn:L; simpl;
    (split; [auto | intros He]); auto;
    apply Nat.eqb_neq in L; intros C; rewrite C in L; apply L; reflexivity.
Qed.

(** X12. After the effect, no message that is in error or older than the
    timeout is still streaming, and none is empty (as long as the text
    that replaces an empty content is not empty itself). *)
Theorem stale_messages_are_settled (D : Chat.Deps) (now : Z)
        (session : Chat.Session) (m : Chat.ChatMessage) :
  Chat.emptyResponse D <> "" ->
  In m (Chat.messages (Chat.settleStale D now session)) ->
  Chat.isStale (now - Chat.REQUEST_TIMEOUT_MS D) m = true ->
  Chat.streaming m = false /\ Chat.content m <> "".
Proof.
  intros He Hin Hstale. unfold Chat.settleStale in Hin. simpl in Hin.
  apply in_map_iff in Hin. destruct Hin as (m0 & <- & _).
  rewrite settle_isStale in Hstale.
  destruct (settle_settled D _ m0 Hstale) as [Hs Hc]. auto.
Qed.

Lemma stale_messages_are_settled_witness :
  Chat.streaming
    (Chat.settle ChatSample.deps (100000 - 60000) ChatSample.pending) = false
  /\ Chat.content
       (Chat.settle ChatSample.deps (100000 - 60000) ChatSample.pending)
     <> "".
Proof.
  apply (stale_messages_are_settled ChatSample.deps 100000
           ChatSample.session).
  - discriminate.
  - simpl. right. right. left. reflexivity.
  - reflexivity.
Defined.

(** X13. The effect changes nothing the second time: running it again at
    the same moment leaves the session as the first run left it. *)
Theorem settleStale_idempotent (D : Chat.Deps) (now : Z)
        (session : Chat.Session) :
  Chat.settleStale D now (Chat.settleStale D now session)
  = Chat.settleStale D now session.
Proof.
  unfold Chat.settleStale. simpl. f_equal. rewrite map_map.
  apply map_ext. intros m.
  set (stop := (now - Chat.REQUEST_TIMEOUT_MS D)%Z).
  unfold Chat.settle at 1. rewrite settle_isStale.
  destruct (Chat.isStale stop m) eqn:E; [|reflexivity].
  unfold Chat.settle. rewrite E.
  destruct m as [i r c d s e u p]. simpl.
  destruct s; simpl; destruct (length c =? 0)%nat eqn:L; simpl;
    try rewrite L; try reflexivity;
    destruct (length (Chat.emptyResponse D) =? 0)%nat; reflexivity.
Qed.

(** X14. The effect keeps the messages in place and leaves alone every
    message that is neither in error nor older than the timeout; of the
    others it keeps the id, the role, the date and the URL detail. *)
Theorem settleStale_spares_fresh (D : Chat.Deps) (now : Z)
        (session : Chat.Session) :
  List.length (Chat.messages (Chat.settleStale D now session))
  = List.length (Chat.messages session)
  /\ forall i m,
       nth_error (Chat.messages session) i = Some m ->
       exists m',
         nth_error (Chat.messages (Chat.settleStale D now session)) i
         = Some m'
         /\ Chat.id m' = Chat.id m /\ Chat.role m' = Chat.role m
         /\ Chat.date m' = Chat.date m
         /\ Chat.urlDetail m' = Chat.urlDetail m
         /\ (Chat.isStale (now - Chat.REQUEST_TIMEOUT_MS D) m = false ->
             m' = m).
Proof.
  unfold Chat.settleStale. simpl. split; [apply length_map|].
  intros i m Hm. rewrite nth_error_map, Hm. simpl.
  eexists. split; [reflexivity|].
  unfold Chat.settle.
  destruct (Chat.isStale _ m); [|repeat split; reflexivity].
  destruct (Chat.streaming m); simpl;
    destruct (length (Chat.content m) =? 0)%nat; simpl;
    repeat split; try reflexivity; discriminate.
Qed.

Lemma settleStale_spares_fresh_witness :
  List.length (Chat.messages
                 (Chat.settleStale ChatSample.deps 100000
                    ChatSample.session))
  = List.length (Chat.messages ChatSample.session)
  /\ forall i m,
       nth_error (Chat.messages ChatSample.session) i = Some m ->
       exists m',
         nth_error (Chat.messages
                      (Chat.settleStale ChatSample.deps 100000
                         ChatSample.session)) i
         = Some m'
         /\ Chat.id m' = Chat.id m /\ Chat.role m' = Chat.role m
         /\ Chat.date m' = Chat.date m
         /\ Chat.urlDetail m' = Chat.urlDetail m
         /\ (Chat.isStale
               (100000 - Chat.REQUEST_TIMEOUT_MS ChatSample.deps) m = false ->
             m' = m).
Proof.
  apply (settleStale_spares_fresh ChatSample.deps 100000
           ChatSample.session).
Defined.

(** ** Deleting a message *)

Lemma filter_all {A} (f : A -> bool) (l : list A) :
  (forall x, In x l -> f x = true) -> filter f l = l.
Proof.
  induction l as [| x l IH]; simpl; intros H; [reflexivity|].
  rewrite (H x (or_introl eq_refl)), IH; [reflexivity|].
  intros y Hy. apply H. right. exact Hy.
Qed.

(** X15. A message that has no id cannot be deleted: the component then
    asks to delete the index of the message in the page, a number, which is
    the id of no message, and the session comes back as it was. *)
Theorem message_without_id_stays (message : Chat.ChatMessage) (i : nat)
        (session : Chat.Session) :
  Chat.id message = None ->
  Chat.onDeleteAt message i session = session.
Proof.
  intros Hid. unfold Chat.onDeleteAt, Chat.deleteMessage. rewrite Hid.
  destruct session as [ms c b]. simpl. f_equal.
  apply filter_all. intros m _. unfold Chat.differs.
  destruct (Chat.id m); reflexivity.
Qed.

Lemma message_without_id_stays_witness :
  Chat.onDeleteAt ChatSample.pending 2 ChatSample.session
  = ChatSample.session.
Proof.
  apply (message_without_id_stays ChatSample.pending 2 ChatSample.session).
  reflexivity.
Defined.

(** X16. Deleting a message that has an id removes every message with
    that id, the message itself among them, and no other: the messages
    with another id, or with none, stay, in their order. *)
Theorem delete_by_id (message : Chat.ChatMessage) (i : nat)
        (session : Chat.Session) (s : string) :
  Chat.id message = Some s ->
  Chat.messages (Chat.onDeleteAt message i session)
  = filter (fun m => match Chat.id m with
                     | Some s' => negb (s' =? s)
                     | None => true
                     end) (Chat.messages session)
  /\ ~ In message (Chat.messages (Chat.onDeleteAt message i session))
  /\ (forall m, In m (Chat.messages session) -> Chat.id m <> Some s ->
                In m (Chat.messages (Chat.onDeleteAt message i session)))
  /\ Chat.clearContextIndex (Chat.onDeleteAt message i session)
     = Chat.clearContextIndex session.
Proof.
  intros Hid. unfold Chat.onDeleteAt, Chat.deleteMessage. rewrite Hid.
  simpl. split; [|split; [|split]].
  - apply filter_ext. intros m. unfold Chat.differs.
    destruct (Chat.id m); reflexivity.
  - intros Hin. apply filter_In in Hin. destruct Hin as [_ Hd].
    unfold Chat.differs in Hd. rewrite Hid, String.eqb_refl in Hd.
    discriminate.
  - intros m Hin Hne. apply filter_In. split; [exact Hin|].
    unfold Chat.differs. destruct (Chat.id m) as [s' |]; [|reflexivity].
    destruct (String.eqb_spec s' s) as [-> |]; [|reflexivity].
    contradiction Hne. reflexivity.
  - reflexivity.
Qed.

Lemma delete_by_id_witness :
  Chat.messages (Chat.onDeleteAt ChatSample.document 1 ChatSample.session)
  = filter (fun m => match Chat.id m with
                     | Some s' => negb (s' =? "m2")
                     | None => true
                     end) (Chat.messages ChatSample.session)
  /\ ~ In ChatSample.document
          (Chat.messages
             (Chat.onDeleteAt ChatSample.document 1 ChatSample.session))
  /\ (forall m, In m (Chat.messages ChatSample.session) ->
                Chat.id m <> Some "m2" ->
                In m (Chat.messages
                        (Chat.onDeleteAt ChatSample.document 1
                           ChatSample.session)))
  /\ Chat.clearContextIndex
       (Chat.onDeleteAt ChatSample.document 1 ChatSample.session)
     = Chat.clearContextIndex ChatSample.session.
Proof.
  apply (delete_by_id ChatSample.document 1 ChatSample.session "m2").
  reflexivity.
Defined.

(** ** The clear-context mark *)

(** X17. Clearing the context toggles the mark: from the second click on,
    a click undoes the click before it; on a session without mark two
    clicks give the session back; and the messages are never touched. *)
Theorem clearContext_toggles (session : Chat.Session) :
  Chat.clearContext (Chat.clearContext (Chat.clearContext session))
  = Chat.clearContext session
  /\ (Chat.clearContextIndex session = None ->
      Chat.clearContext (Chat.clearContext session) = session)
  /\ Chat.messages (Chat.clearContext session) = Chat.messages session
  /\ (Chat.clearContextIndex (Chat.clearContext session) = None
      \/ Chat.clearContextIndex (Chat.clearContext session)
         = Some (List.length (Chat.messages session))).
Proof.
  destruct session as [ms [k |] b]; unfold Chat.clearContext; simpl.
  - destruct (Nat.eqb_spec k (List.length ms)) as [-> | Hne]; simpl;
      rewrite ?Nat.eqb_refl; simpl; rewrite ?Nat.eqb_refl;
      repeat split; auto; discriminate.
  - rewrite Nat.eqb_refl. simpl. repeat split; auto.
Qed.

Lemma clearContext_toggles_witness :
  Chat.clearContext
    (Chat.clearContext (Chat.clearContext ChatSample.session))
  = Chat.clearContext ChatSample.session
  /\ (Chat.clearContextIndex ChatSample.session = None ->
      Chat.clearContext (Chat.clearContext ChatSample.session)
      = ChatSample.session)
  /\ Chat.messages (Chat.clearContext ChatSample.session)
     = Chat.messages ChatSample.session
  /\ (Chat.clearContextIndex (Chat.clearContext ChatSample.session) = None
      \/ Chat.clearContextIndex (Chat.clearContext ChatSample.session)
         = Some (List.length (Chat.messages ChatSample.session))).
Proof. apply (clearContext_toggles ChatSample.session). Defined.

(** ** The page *)




Lemma firstn_min_length {A} (n : nat) (l : list A) :
  firstn (Nat.min n (List.length l)) l = firstn n l.
Proof.
  destruct (Nat.le_ge_cases n (List.length l)) as [H | H].
  - rewrite Nat.min_l by exact H. reflexivity.
  - rewrite Nat.min_r by exact H.
    rewrite firstn_all, firstn_all2 by exact H. reflexivity.
Qed.

(** The page is at most three pages of messages, from the render index
    on. *)
Lemma page_from_index (D : Chat.Deps) (msgRenderIndex : Z)
      (rendered : list Chat.ChatMessage) :
  (0 <= msgRenderIndex)%Z ->
  (0 <= Chat.CHAT_PAGE_SIZE D)%Z ->
  Chat.page D msgRenderIndex rendered
  = firstn (Z.to_nat (3 * Chat.CHAT_PAGE_SIZE D))
           (skipn (Z.to_nat msgRenderIndex) rendered).
Proof.
  intros Hi Hp. unfold Chat.page, JSArray.slice, JSArray.relative.
  set (len := Z.of_nat (List.length rendered)).
  set (P := Chat.CHAT_PAGE_SIZE D) in *.
  assert (Hlen : (0 <= len)%Z) by (unfold len; lia).
  destruct (Z.ltb_spec msgRenderIndex 0); [lia|].
  destruct (Z.ltb_spec (Z.min (msgRenderIndex + 3 * P) len) 0); [lia|].
  destruct (Z.le_gt_cases msgRenderIndex len) as [Hle | Hgt].
  - rewrite (Z.min_l msgRenderIndex len) by exact Hle.
    rewrite <- (firstn_min_length (Z.to_nat (3 * P))).
    f_equal. rewrite length_skipn. unfold len in *. lia.
  - rewrite (Z.min_r msgRenderIndex len) by lia.
    rewrite !skipn_all2 by (unfold len in *; lia).
    rewrite !firstn_nil. reflexivity.
Qed.

(** X19. With a render index that is not negative, the page that is shown
    is the run of at most three pages of rendered messages that starts at
    the render index: never more than three pages, each of its messages at
    its place in the list, and none when the index lies beyond the last
    message. *)
Theorem page_is_three_pages (D : Chat.Deps) (msgRenderIndex : Z)
        (rendered : list Chat.ChatMessage) :
  (0 <= msgRenderIndex)%Z ->
  (0 <= Chat.CHAT_PAGE_SIZE D)%Z ->
  Chat.page D msgRenderIndex rendered
  = firstn (Z.to_nat (3 * Chat.CHAT_PAGE_SIZE D))
           (skipn (Z.to_nat msgRenderIndex) rendered)
  /\ (Z.of_nat (List.length (Chat.page D msgRenderIndex rendered))
      <= 3 * Chat.CHAT_PAGE_SIZE D)%Z
  /\ (forall i m,
        nth_error (Chat.page D msgRenderIndex rendered) i = Some m ->
        nth_error rendered (Z.to_nat msgRenderIndex + i) = Some m).
Proof.
  intros Hi Hp. rewrite (page_from_index D _ _ Hi Hp).
  split; [reflexivity|]. split.
  - rewrite length_firstn. lia.
  - intros i m Hm. rewrite nth_error_firstn in Hm.
    destruct (i <? Z.to_nat (3 * Chat.CHAT_PAGE_SIZE D))%nat;
      [|discriminate Hm].
    rewrite nth_error_skipn in Hm. exact Hm.
Qed.

Lemma page_is_three_pages_witness :
  Chat.page ChatSample.deps 1
            (Chat.messages ChatSample.session)
  = firstn (Z.to_nat (3 * Chat.CHAT_PAGE_SIZE ChatSample.deps))
           (skipn (Z.to_nat 1) (Chat.messages ChatSample.session))
  /\ (Z.of_nat (List.length (Chat.page ChatSample.deps 1
                               (Chat.messages ChatSample.session)))
      <= 3 * Chat.CHAT_PAGE_SIZE ChatSample.deps)%Z
  /\ (forall i m,
        nth_error (Chat.page ChatSample.deps 1
                     (Chat.messages ChatSample.session)) i = Some m ->
        nth_error (Chat.messages ChatSample.session) (Z.to_nat 1 + i)
        = Some m).
Proof.
  apply (page_is_three_pages ChatSample.deps 1
           (Chat.messages ChatSample.session)).
  - lia.
  - simpl. lia.
Defined.

(** X20. After [scrollToBottom] the page is the last page of the rendered
    messages: all of them when they are fewer than a page, the last
    [CHAT_PAGE_SIZE] otherwise. *)
Theorem scrollToBottom_shows_the_end (D : Chat.Deps)
        (rendered : list Chat.ChatMessage) :
  (0 <= Chat.CHAT_PAGE_SIZE D)%Z ->
  Chat.page D (Chat.scrollToBottom D (Z.of_nat (List.length rendered)))
            rendered
  = skipn (Z.to_nat (Z.of_nat (List.length rendered)
                     - Chat.CHAT_PAGE_SIZE D)) rendered.
Proof.
  intros Hp.
  set (len := Z.of_nat (List.length rendered)).
  assert (Hlen : (0 <= len)%Z) by (unfold len; lia).
  rewrite page_from_index;
    [| unfold Chat.scrollToBottom, Chat.setMsgRenderIndex; lia | exact Hp].
  replace (Z.to_nat (Chat.scrollToBottom D len))
    with (Z.to_nat (len - Chat.CHAT_PAGE_SIZE D))
    by (unfold Chat.scrollToBottom, Chat.setMsgRenderIndex; lia).
  apply firstn_all2. rewrite length_skipn. unfold len in *. lia.
Qed.

Lemma scrollToBottom_shows_the_end_witness :
  Chat.page ChatSample.deps
            (Chat.scrollToBottom ChatSample.deps
               (Z.of_nat (List.length (Chat.messages ChatSample.session))))
            (Chat.messages ChatSample.session)
  = skipn (Z.to_nat
             (Z.of_nat (List.length (Chat.messages ChatSample.session))
              - Chat.CHAT_PAGE_SIZE ChatSample.deps))
          (Chat.messages ChatSample.session).
Proof.
  apply (scrollToBottom_shows_the_end ChatSample.deps
           (Chat.messages ChatSample.session)).
  simpl. lia.
Defined.

(** ** The rendered messages *)

Lemma last_some {A} (l : list A) :
  match last (map Some l) None with
  | None => l = []
  | Some x => exists l', l = (l' ++ [x])%list
  end.
Proof.
  induction l as [| a l IH]; [reflexivity|].
  destruct l as [| b l].
  - simpl. exists []. reflexivity.
  - change (last (map Some (a :: b :: l)) None)
      with (last (map Some (b :: l)) None).
    destruct (last (map Some (b :: l)) None) as [x |].
    + destruct IH as (l' & ->). exists (a :: l'). reflexivity.
    + discriminate IH.
Qed.

(** What a rendered list is made of. *)
Lemma renderMessages_shape (D : Chat.Deps) (session : Chat.Session)
      (temporaryURLInput : string) :
  match Chat.renderMessages D session temporaryURLInput with
  | Err _ => True
  | Ok rendered =>
      exists hello previewed,
        rendered
        = (Chat.shownContext session ++ hello
           ++ Chat.getFrontendMessages D (Chat.messages session)
           ++ previewed)%list
        /\ List.length hello
           = (if Chat.botHello (Chat.bot session) =? "" then 0 else 1)
  end.
Proof.
  unfold Chat.renderMessages.
  destruct (Chat.getUrlPreviewMessage D session temporaryURLInput)
    as [previewMessage | e]; simpl; [|exact I].
  eexists. eexists. split; [reflexivity|].
  destruct (Chat.botHello (Chat.bot session) =? ""); reflexivity.
Qed.

(** X21. Rendering fails in one case only, with a type error: a URL is
    pending and the session has no message, so that there is no last
    message to read [streaming] from.  Otherwise the rendered list holds
    the shown context, the greeting if the bot has one, one message per
    message of the session, and the preview if there is one. *)
Theorem renderMessages_outcome (D : Chat.Deps) (session : Chat.Session)
        (temporaryURLInput : string) :
  match Chat.renderMessages D session temporaryURLInput with
  | Err e =>
      e = TypeError
            "Cannot read properties of undefined (reading 'streaming')"
      /\ temporaryURLInput <> "" /\ Chat.messages session = []
  | Ok rendered =>
      (temporaryURLInput = "" \/ Chat.messages session <> [])
      /\ exists hello previewed,
           rendered
           = (Chat.shownContext session ++ hello
              ++ Chat.getFrontendMessages D (Chat.messages session)
              ++ previewed)%list
           /\ List.length hello <= 1 /\ List.length previewed <= 1
           /\ (hello = [] <-> Chat.botHello (Chat.bot session) = "")
  end.
Proof.
  unfold Chat.renderMessages, Chat.getUrlPreviewMessage.
  assert (Hhello : forall previewed,
             List.length previewed <= 1 ->
             exists hello previewed',
               (Chat.shownContext session
                ++ (if Chat.botHello (Chat.bot session) =? "" then []
                    else [Chat.createMessage D "assistant"
                            (Chat.botHello (Chat.bot session))])
                ++ Chat.getFrontendMessages D (Chat.messages session)
                ++ previewed)%list
               = (Chat.shownContext session ++ hello
                  ++ Chat.getFrontendMessages D (Chat.messages session)
                  ++ previewed')%list
               /\ List.length hello <= 1 /\ List.length previewed' <= 1
               /\ (hello = [] <-> Chat.botHello (Chat.bot session) = "")).
  { intros previewed Hp. eexists. exists previewed.
    split; [reflexivity|]. split; [|split; [exact Hp|]].
    - destruct (Chat.botHello (Chat.bot session) =? ""); simpl; lia.
    - destruct (String.eqb_spec (Chat.botHello (Chat.bot session)) "");
        split; auto; try discriminate; contradiction. }
  destruct (String.eqb_spec temporaryURLInput "") as [-> | Hne]; simpl.
  - split; [left; reflexivity|]. apply Hhello. simpl. lia.
  - pose proof (last_some (Chat.messages session)) as Hlast.
    destruct (last (map Some (Chat.messages session)) None)
      as [lastMessage |]; simpl.
    + assert (Hms : Chat.messages session <> []).
      { destruct Hlast as (l' & ->). destruct l'; discriminate. }
      destruct (Chat.streaming lastMessage); simpl;
        (split; [right; exact Hms|]); apply Hhello; simpl; lia.
    + auto.
Qed.

(** X22. The clear-context mark is drawn where the context was cleared:
    when the mark of the session is [index], the message of the page at
    the place before the mark's index in the page is the message number
    [index - 1] of the session, as it is shown. *)
Theorem mark_follows_the_cleared_message (D : Chat.Deps)
        (session : Chat.Session) (temporaryURLInput : string)
        (rendered : list Chat.ChatMessage) (msgRenderIndex : Z)
        (index : nat) :
  Chat.renderMessages D session temporaryURLInput = Ok rendered ->
  Chat.clearContextIndex session = Some index ->
  1 <= index <= List.length (Chat.messages session) ->
  (0 <= msgRenderIndex)%Z ->
  (0 <= Chat.clearContextIndexInPage session msgRenderIndex - 1
   < 3 * Chat.CHAT_PAGE_SIZE D)%Z ->
  nth_error (Chat.page D msgRenderIndex rendered)
            (Z.to_nat (Chat.clearContextIndexInPage session msgRenderIndex
                       - 1))
  = option_map (Chat.frontend D)
               (nth_error (Chat.messages session) (index - 1)).
Proof.
  intros Hr Hc Hi Hm Hp.
  pose proof (renderMessages_shape D session temporaryURLInput) as Hs.
  rewrite Hr in Hs. destruct Hs as (hello & previewed & -> & Hh).
  unfold Chat.clearContextIndexInPage in *. rewrite Hc in *.
  rewrite page_from_index by lia.
  rewrite nth_error_firstn.
  match goal with
  | |- (if ?b then _ else _) = _ => replace b with true
      by (symmetry; apply Nat.ltb_lt; lia)
  end.
  rewrite nth_error_skipn.
  set (ctx := Chat.shownContext session) in *.
  match goal with
  | |- nth_error _ ?n = _ =>
      replace n
        with (List.length ctx + (List.length hello + (index - 1)))%nat
  end.
  2:{ rewrite Hh. destruct (Chat.botHello (Chat.bot session) =? "");
        simpl; lia. }
  rewrite nth_error_app2 by lia.
  replace (List.length ctx + (List.length hello + (index - 1))
           - List.length ctx)%nat
    with (List.length hello + (index - 1))%nat by lia.
  rewrite nth_error_app2 by lia.
  replace (List.length hello + (index - 1) - List.length hello)%nat
    with (index - 1)%nat by lia.
  rewrite nth_error_app1
    by (unfold Chat.getFrontendMessages; rewrite length_map; lia).
  apply nth_error_map.
Qed.

Lemma mark_follows_the_cleared_message_witness :
  nth_error
    (Chat.page ChatSample.deps 0
       [ChatSample.message None "system" "Be brief." 0;
        ChatSample.message None "assistant"
          "Hello! How can I assist you today?" 0;
        Chat.frontend ChatSample.deps ChatSample.question;
        Chat.frontend ChatSample.deps ChatSample.document;
        Chat.frontend ChatSample.deps ChatSample.pending])
    (Z.to_nat (Chat.clearContextIndexInPage ChatSample.session 0 - 1))
  = option_map (Chat.frontend ChatSample.deps)
               (nth_error (Chat.messages ChatSample.session) (2 - 1)).
Proof.
  apply (mark_follows_the_cleared_message ChatSample.deps
           ChatSample.session ""
           [ChatSample.message None "system" "Be brief." 0;
            ChatSample.message None "assistant"
              "Hello! How can I assist you today?" 0;
            Chat.frontend ChatSample.deps ChatSample.question;
            Chat.frontend ChatSample.deps ChatSample.document;
            Chat.frontend ChatSample.deps ChatSample.pending] 0 2).
  - reflexivity.
  - reflexivity.
  - simpl. lia.
  - lia.
  - vm_compute. split; [discriminate | reflexivity].
Defined.

(* ================================================================== *)
(** * Further properties of the orchestrator *)

Lemma getYouTubeSubtitles_trace (W : World) (u : string) :
  trace (getYouTubeSubtitles W u) = []
  \/ exists videoId,
       trace (getYouTubeSubtitles W u) = [FetchTranscript videoId].
Proof.
  destruct (JS.parseURL (hierOk W) u) as [parsed | e] eqn:Hp.
  - rewrite (getYouTubeSubtitles_parsed _ _ _ Hp).
    destruct (falsy _); [left; reflexivity | right; eexists; reflexivity].
  - rewrite (getYouTubeSubtitles_unparsed _ _ _ Hp). left. reflexivity.
Qed.

(** A run of [fetchContentFromURL], case by case: its requests, and the
    record when there is one. *)
Lemma fetchContentFromURL_cases (W : World) (u : string) :
  (isOk (outcome (fetchContentFromURL W u)) = false
   /\ trace (fetchContentFromURL W u) = [GET u])
  \/ (isYouTubeLink u = true
      /\ trace (fetchContentFromURL W u)
         = GET u :: trace (getYouTubeSubtitles W u)
      /\ forall r, outcome (fetchContentFromURL W u) = Ok r ->
           url r = u /\ type r = "text/plain"
           /\ size r = length (content r))
  \/ (isYouTubeLink u = false
      /\ (exists response,
            fetch W u = Ok response
            /\ JS.includes "text/html"
                 (orEmpty (contentTypeHeader response)) = true)
      /\ trace (fetchContentFromURL W u) = [GET u]
      /\ forall r, outcome (fetchContentFromURL W u) = Ok r ->
           url r = u /\ type r = "text/html")
  \/ (isYouTubeLink u = false
      /\ (exists response,
            fetch W u = Ok response
            /\ JS.includes "text/html"
                 (orEmpty (contentTypeHeader response)) = false
            /\ JS.includes "application/pdf"
                 (orEmpty (contentTypeHeader response)) = true)
      /\ trace (fetchContentFromURL W u) = [GET u; AxiosGET u]
      /\ forall r, outcome (fetchContentFromURL W u) = Ok r ->
           url r = u /\ type r = "application/pdf"
           /\ size r = length (content r)).
Proof.
  destruct (fetch W u) as [response | e] eqn:Hfetch.
  2:{ left. unfold fetchContentFromURL. rewrite Hfetch. split; reflexivity. }
  rewrite (fetchContentFromURL_answered _ _ _ Hfetch).
  unfold request, bind, await, throw, ret, viaYouTube, outcome, trace.
  destruct (ok response); simpl; [|left; split; reflexivity].
  destruct (isYouTubeLink u) eqn:Hyt.
  { right. left. split; [reflexivity|].
    destruct (getYouTubeSubtitles W u) as [[srt | e] t]; simpl.
    - rewrite app_nil_r. split; [reflexivity|].
      intros r H. injection H as <-. simpl. auto.
    - split; [reflexivity|]. intros r H. discriminate. }
  destruct (JS.includes "text/html" _) eqn:Hhtml.
  { right. right. left. split; [reflexivity|].
    split; [exists response; auto|].
    destruct (body response) as [htmlContent | e]; simpl;
      [|split; [reflexivity | intros r H; discriminate]].
    destruct (htmlToMarkdown W htmlContent) as [md | e]; simpl;
      [|split; [reflexivity | intros r H; discriminate]].
    split; [reflexivity|]. intros r H. injection H as <-. simpl. auto. }
  destruct (JS.includes "application/pdf" _) eqn:Hpdf;
    [|left; split; reflexivity].
  right. right. right. split; [reflexivity|].
  split; [exists response; auto|].
  destruct (axiosGet W u) as [buffer | e]; simpl;
    [|split; [reflexivity | intros r H; discriminate]].
  destruct (pdf W buffer) as [data | e]; simpl;
    [|split; [reflexivity | intros r H; discriminate]].
  split; [reflexivity|]. intros r H. injection H as <-. simpl. auto.
Qed.

(** X23. A record that [fetchContentFromURL] returns carries the URL it
    was asked for and one of the three types; its type is [text/plain]
    exactly when the URL is a YouTube link. *)
Theorem record_has_url_and_type (W : World) (u : string)
        (r : URLDetailContent) :
  outcome (fetchContentFromURL W u) = Ok r ->
  url r = u
  /\ (type r = "text/plain" \/ type r = "text/html"
      \/ type r = "application/pdf")
  /\ (type r = "text/plain" <-> isYouTubeLink u = true).
Proof.
  intros Hr.
  destruct (fetchContentFromURL_cases W u)
    as [[Hno _] | [(Hyt & _ & H) | [(Hyt & _ & _ & H) | (Hyt & _ & _ & H)]]].
  - rewrite Hr in Hno. discriminate.
  - destruct (H r Hr) as (-> & Ht & _). rewrite Ht. tauto.
  - destruct (H r Hr) as (-> & Ht). rewrite Ht, Hyt.
    repeat split; auto; discriminate.
  - destruct (H r Hr) as (-> & Ht & _). rewrite Ht, Hyt.
    repeat split; auto; discriminate.
Qed.

Lemma record_has_url_and_type_witness :
  url {| url := "https://example.org/paper.pdf"; content := "A paper";
         size := 7; type := "application/pdf" |}
  = "https://example.org/paper.pdf"
  /\ (type {| url := "https://example.org/paper.pdf"; content := "A paper";
              size := 7; type := "application/pdf" |} = "text/plain"
      \/ type {| url := "https://example.org/paper.pdf";
                 content := "A paper"; size := 7;
                 type := "application/pdf" |} = "text/html"
      \/ type {| url := "https://example.org/paper.pdf";
                 content := "A paper"; size := 7;
                 type := "application/pdf" |} = "application/pdf")
  /\ (type {| url := "https://example.org/paper.pdf"; content := "A paper";
              size := 7; type := "application/pdf" |} = "text/plain"
      <-> isYouTubeLink "https://example.org/paper.pdf" = true).
Proof.
  apply (record_has_url_and_type Sample.world
           "https://example.org/paper.pdf").
  reflexivity.
Defined.

(** X24. The size of a record is the length of its content, unless the
    record is an HTML one. *)
Theorem size_is_content_length_but_for_html (W : World) (u : string)
        (r : URLDetailContent) :
  outcome (fetchContentFromURL W u) = Ok r ->
  type r <> "text/html" ->
  size r = length (content r).
Proof.
  intros Hr Hne.
  destruct (fetchContentFromURL_cases W u)
    as [[Hno _] | [(_ & _ & H) | [(_ & _ & _ & H) | (_ & _ & _ & H)]]].
  - rewrite Hr in Hno. discriminate.
  - apply (H r Hr).
  - destruct (H r Hr) as (_ & Ht). contradiction.
  - apply (H r Hr).
Qed.

Lemma size_is_content_length_but_for_html_witness :
  size {| url := "https://www.youtube.com/watch?v=abc";
          content := subtitleTrack
                       [{| text := "Hi"; duration := 1000; offset := 0 |}];
          size := 36; type := "text/plain" |}
  = length (content
              {| url := "https://www.youtube.com/watch?v=abc";
                 content := subtitleTrack
                   [{| text := "Hi"; duration := 1000; offset := 0 |}];
                 size := 36; type := "text/plain" |}).
Proof.
  apply (size_is_content_length_but_for_html Sample.world
           "https://www.youtube.com/watch?v=abc").
  - reflexivity.
  - discriminate.
Defined.

(** X25. A run sends the first request and at most one more: either only
    [GET url]; or, for a YouTube link, [GET url] and one request to the
    captions provider; or, for another URL, [GET url] and the second
    request for the PDF.  Nothing is asked twice, and the captions provider
    and the PDF request never occur in the same run. *)
Theorem at_most_two_requests (W : World) (u : string) :
  trace (fetchContentFromURL W u) = [GET u]
  \/ (isYouTubeLink u = true
      /\ exists videoId,
           trace (fetchContentFromURL W u)
           = [GET u; FetchTranscript videoId])
  \/ (isYouTubeLink u = false
      /\ trace (fetchContentFromURL W u) = [GET u; AxiosGET u]).
Proof.
  destruct (fetchContentFromURL_cases W u)
    as [[_ Ht] | [(Hyt & Ht & _) | [(_ & _ & Ht & _) | (Hyt & _ & Ht & _)]]];
    auto.
  destruct (getYouTubeSubtitles_trace W u) as [E | (videoId & E)];
    rewrite E in Ht; [auto|].
  right. left. split; [exact Hyt | exists videoId; exact Ht].
Qed.

(** X26. HTML comes before PDF: when the content type of a successful
    answer contains [text/html], the body of the first answer is what is
    converted, and no second request is made, also when the content type
    contains [application/pdf] as well. *)
Theorem html_comes_before_pdf (W : World) (u : string)
        (response : Response) :
  fetch W u = Ok response ->
  ok response = true ->
  isYouTubeLink u = false ->
  JS.includes "text/html" (orEmpty (contentTypeHeader response)) = true ->
  trace (fetchContentFromURL W u) = [GET u]
  /\ outcome (fetchContentFromURL W u)
     = andThen (body response) (fun htmlContent =>
         andThen (htmlToMarkdown W htmlContent) (fun markdownContent =>
           Ok {| url := u; content := markdownContent;
                 size := length htmlContent; type := "text/html" |})).
Proof.
  intros Hfetch Hok Hyt Hhtml.
  rewrite (fetchContentFromURL_answered _ _ _ Hfetch).
  unfold request, bind, await, ret, outcome, trace.
  rewrite Hok, Hyt, Hhtml. simpl.
  destruct (body response) as [htmlContent | e]; simpl; [|auto].
  destruct (htmlToMarkdown W htmlContent); simpl; auto.
Qed.

Lemma html_comes_before_pdf_witness :
  trace (fetchContentFromURL (More.always More.both (Ok []))
                             "https://example.org/both") 
  = [GET "https://example.org/both"]
  /\ outcome (fetchContentFromURL (More.always More.both (Ok []))
                                  "https://example.org/both")
     = andThen (body More.both) (fun htmlContent =>
         andThen (htmlToMarkdown (More.always More.both (Ok []))
                                 htmlContent)
           (fun markdownContent =>
              Ok {| url := "https://example.org/both";
                    content := markdownContent;
                    size := length htmlContent; type := "text/html" |})).
Proof.
  apply (html_comes_before_pdf (More.always More.both (Ok []))
           "https://example.org/both" More.both); reflexivity.
Defined.

(** X27. An answer without a content-type header, or with an empty one,
    is of no supported type: for a URL that is not a YouTube link the run
    fails as unsupported after the first request. *)
Theorem missing_content_type_is_unsupported (W : World) (u : string)
        (response : Response) :
  fetch W u = Ok response ->
  ok response = true ->
  isYouTubeLink u = false ->
  contentTypeHeader response = None
  \/ contentTypeHeader response = Some "" ->
  fetchContentFromURL W u = (Err UnsupportedType, [GET u]).
Proof.
  intros Hfetch Hok Hyt Hct.
  rewrite (fetchContentFromURL_answered _ _ _ Hfetch).
  unfold request, bind. rewrite Hok, Hyt.
  destruct Hct as [-> | ->]; reflexivity.
Qed.

Lemma missing_content_type_is_unsupported_witness :
  fetchContentFromURL (More.always More.bare (Ok []))
                      "https://example.org/file"
  = (Err UnsupportedType, [GET "https://example.org/file"]).
Proof.
  apply (missing_content_type_is_unsupported
           (More.always More.bare (Ok []))
           "https://example.org/file" More.bare);
    try reflexivity.
  left. reflexivity.
Defined.

(** ** From the record to its label in the chat *)

(** X28. A message whose URL detail is a record that
    [fetchContentFromURL] returned is shown as the URL, a line break and a
    label between backquotes made of [HTML], [PDF] or [TXT], a bullet and
    the size in KB: the label of the unknown type is never used for it. *)
Theorem fetched_record_label (W : World) (u : string)
        (r : URLDetailContent) (D : Chat.Deps)
        (message : Chat.ChatMessage) :
  outcome (fetchContentFromURL W u) = Ok r ->
  Chat.urlDetail message
  = Some {| Chat.url := url r; Chat.size := size r;
            Chat.type := type r |} ->
  exists prefix,
    In prefix ["HTML"; "PDF"; "TXT"]
    /\ Chat.content (Chat.frontend D message)
       = u ++ String "010" ""
         ++ "`" ++ prefix ++ " " ++ Chat.bullet ++ " "
         ++ JS.decimal (Chat.sizeInKB (size r)) ++ " KB`".
Proof.
  intros Hr Hd. unfold Chat.frontend. rewrite Hd. simpl.
  unfold Chat.getUrlTypePrefix.
  destruct (fetchContentFromURL_cases W u)
    as [[Hno _] | [(_ & _ & H) | [(_ & _ & _ & H) | (_ & _ & _ & H)]]].
  - rewrite Hr in Hno. discriminate.
  - destruct (H r Hr) as (-> & -> & _). exists "TXT". simpl. auto.
  - destruct (H r Hr) as (-> & ->). exists "HTML". simpl. auto.
  - destruct (H r Hr) as (-> & -> & _). exists "PDF". simpl. auto.
Qed.

Lemma fetched_record_label_witness :
  exists prefix,
    In prefix ["HTML"; "PDF"; "TXT"]
    /\ Chat.content (Chat.frontend ChatSample.deps ChatSample.document)
       = "https://example.org/page" ++ String "010" ""
         ++ "`" ++ prefix ++ " " ++ Chat.bullet ++ " "
         ++ JS.decimal
              (Chat.sizeInKB
                 (size {| url := "https://example.org/page";
                          content := String "H" (String "e" (String "l"
                            (String "l" (String "o" (String "010" "")))));
                          size := 72; type := "text/html" |}))
         ++ " KB`".
Proof.
  apply (fetched_record_label Sample.world "https://example.org/page"
           {| url := "https://example.org/page";
              content := String "H" (String "e" (String "l"
                           (String "l" (String "o" (String "010" "")))));
              size := 72; type := "text/html" |}
           ChatSample.deps ChatSample.document); reflexivity.
Defined.

(* ================================================================== *)
(** * Properties of the demo bots *)

Lemma lookup_set_same {V} (key : string) (value : V)
      (map : list (string * V)) :
  Bots.lookup key (Bots.set key value map) = Some value.
Proof.
  induction map as [| [k v] rest IH]; simpl.
  - rewrite String.eqb_refl. reflexivity.
  - destruct (k =? key) eqn:E; simpl.
    + rewrite String.eqb_refl. reflexivity.
    + rewrite E. exact IH.
Qed.

Lemma lookup_set_other {V} (key key' : string) (value : V)
      (map : list (string * V)) :
  key <> key' ->
  Bots.lookup key (Bots.set key' value map) = Bots.lookup key map.
Proof.
  intros Hne. induction map as [| [k v] rest IH]; simpl.
  - destruct (String.eqb_spec key' key); [congruence | reflexivity].
  - destruct (String.eqb_spec k key') as [-> | Hk]; simpl.
    + destruct (String.eqb_spec key' key); [congruence | reflexivity].
    + destruct (k =? key); [reflexivity | exact IH].
Qed.

Lemma addDemoBots_other {Session} (s : Session)
      (demoBots : list Bots.DemoBot) :
  forall (map : list (string * Bots.Bot Session)) (key : string),
    ~ In key (List.map Bots.id demoBots) ->
    Bots.lookup key (Bots.addDemoBots s demoBots map) = Bots.lookup key map.
Proof.
  induction demoBots as [| b rest IH]; intros map key Hno; [reflexivity|].
  unfold Bots.addDemoBots in *. simpl in *.
  rewrite IH by tauto. apply lookup_set_other. intros ->. tauto.
Qed.

(** X29. When the demo bots have distinct ids, as the two of the file
    have, the map that the loop of [createDemoBots] builds holds each demo
    bot under its own id, unchanged and with an empty session, and holds
    nothing under any other key. *)
Theorem demo_bots_by_id {Session} (s : Session)
        (demoBots : list Bots.DemoBot) :
  NoDup (List.map Bots.id demoBots) ->
  (forall b, In b demoBots ->
             Bots.lookup (Bots.id b) (Bots.addDemoBots s demoBots [])
             = Some {| Bots.demo := b; Bots.session := s |})
  /\ (forall key, ~ In key (List.map Bots.id demoBots) ->
                  Bots.lookup key (Bots.addDemoBots s demoBots []) = None).
Proof.
  intros Hnd. split.
  - generalize (@nil (string * Bots.Bot Session)).
    induction demoBots as [| a rest IH]; intros map b Hb; [destruct Hb|].
    inversion Hnd as [| x xs Hx Hxs]; subst.
    unfold Bots.addDemoBots in *. simpl.
    destruct Hb as [<- | Hb].
    + change (fold_left _ rest ?m) with (Bots.addDemoBots s rest m).
      rewrite (addDemoBots_other s rest _ _ Hx).
      apply lookup_set_same.
    + apply IH; assumption.
  - intros key Hno. rewrite (addDemoBots_other s demoBots _ _ Hno).
    reflexivity.
Qed.

Lemma demo_bots_by_id_witness :
  (forall b, In b Bots.DEMO_BOTS ->
             Bots.lookup (Bots.id b) (Bots.createDemoBots tt)
             = Some {| Bots.demo := b; Bots.session := tt |})
  /\ (forall key, ~ In key (List.map Bots.id Bots.DEMO_BOTS) ->
                  Bots.lookup key (Bots.createDemoBots tt) = None).
Proof.
  apply (@demo_bots_by_id unit tt Bots.DEMO_BOTS).
  simpl. constructor; [intros [H | []]; discriminate|].
  constructor; [intros [] | constructor].
Defined.
